(** * DocVector: vector-store adapters, factory validation and hybrid scoring

    A shallow embedding of the Python code of the vector database
    abstraction layer (the ChromaDB and Qdrant implementations of
    [IVectorStore], and the [get_vector_db] factory with its validators),
    followed by the properties of the design specification that the code
    decides.

    Conventions of the embedding:
    - a Python [float] is an exact rational ([Q]); scores are compared with
      [==] ([Qeq]) and ordered with [<=] ([Qle]);
    - a Python exception is a constructor of [exn]; a call that may raise
      returns a [result];
    - an [async def] is the function it awaits to: every [await] is a plain
      call, and [asyncio.to_thread f args] is [f args];
    - a method of an adapter takes the adapter ([self]) and, when it talks to
      the engine, returns the adapter it leaves behind. *)

From Stdlib Require Import ZArith QArith Lia Lqa Ascii String.
From stdpp Require Import base option list gmap strings sorting pretty.

Local Open Scope string_scope.

(** ** Fragments of the Python runtime *)

Module Py.

(** The exception classes the code raises or meets.  All of them derive
    from [Exception], so an [except Exception] clause catches each. *)
Inductive exn : Type :=
| ValueError (msg : string)
| RuntimeError (msg : string)
| AttributeError (msg : string)
| UnboundLocalError (msg : string)
| ZeroDivisionError (msg : string)
| VectorDBConfigurationError (msg : string)
| UnexpectedResponse (status_code : option Z) (msg : string)
| ResponseHandlingException (msg : string).

Inductive result (A : Type) : Type :=
| Ok (a : A)
| Raise (e : exn).
Arguments Ok {A} a.
Arguments Raise {A} e.

Definition bind {A B} (m : result A) (k : A -> result B) : result B :=
  match m with
  | Ok a => k a
  | Raise e => Raise e
  end.

(** [try: body / except Exception: handler]. *)
Definition try_except {A} (body : result A) (handler : exn -> result A) : result A :=
  match body with
  | Ok a => Ok a
  | Raise e => handler e
  end.

(** Calls that act on a client: they run on the state [S] of what the
    client talks to, leave a state behind and may raise; an exception ends
    the sequence in the state reached so far. *)
Definition io (S A : Type) : Type := S -> result A * S.

Definition io_ret {S A} (a : A) : io S A := fun s => (Ok a, s).

Definition io_bind {S A B} (m : io S A) (k : A -> io S B) : io S B :=
  fun s =>
    match m s with
    | (Ok a, s') => k a s'
    | (Raise e, s') => (Raise e, s')
    end.

(** A call that only reads the state, and a computation that needs none. *)
Definition io_read {S A} (f : S -> result A) : io S A := fun s => (f s, s).
Definition io_lift {S A} (r : result A) : io S A := fun s => (r, s).

(** Truthiness of the values the code tests with [if x], [not x], [x and y]
    and [x or y]: [None] and the empty string, list or dict are false. *)
Definition truthy_str (s : option string) : bool :=
  match s with
  | Some (String _ _) => true
  | _ => false
  end.

Definition truthy_list {A} (l : option (list A)) : bool :=
  match l with
  | Some (_ :: _) => true
  | _ => false
  end.

Definition truthy_dict {V} (d : option (gmap string V)) : bool :=
  match d with
  | Some m => negb (Nat.eqb (size m) 0)
  | None => false
  end.

(** [max(a, b)] and [min(a, b)] on numbers: the first argument is kept
    unless the second is strictly better. *)
Definition max (a b : Q) : Q := if Qlt_le_dec a b then b else a.
Definition min (a b : Q) : Q := if Qlt_le_dec b a then b else a.

(** [str.lower] on the ASCII range. *)
Definition lower_ascii (c : ascii) : ascii :=
  let n := Ascii.nat_of_ascii c in
  if (65 <=? n)%nat && (n <=? 90)%nat then Ascii.ascii_of_nat (n + 32) else c.

Fixpoint lower (s : string) : string :=
  match s with
  | EmptyString => EmptyString
  | String c s' => String (lower_ascii c) (lower s')
  end.

(** [str(e)] of an exception built from one message. *)
Definition str_exn (e : exn) : string :=
  match e with
  | ValueError m | RuntimeError m | AttributeError m | UnboundLocalError m
  | ZeroDivisionError m | VectorDBConfigurationError m
  | UnexpectedResponse _ m | ResponseHandlingException m => m
  end.

(** [needle in haystack] on strings. *)
Fixpoint contains (needle haystack : string) : bool :=
  String.prefix needle haystack ||
  match haystack with
  | EmptyString => false
  | String _ rest => contains needle rest
  end.

(** [os.path.dirname] of [posixpath]: the path up to its last separator,
    without trailing separators unless it consists of separators only. *)
Definition is_sep (c : ascii) : bool := Ascii.eqb c "/"%char.

Fixpoint has_sep (p : string) : bool :=
  match p with
  | EmptyString => false
  | String c rest => is_sep c || has_sep rest
  end.

(** [p[:p.rfind("/") + 1]]. *)
Fixpoint upto_last_sep (p : string) : string :=
  match p with
  | EmptyString => EmptyString
  | String c rest => if has_sep p then String c (upto_last_sep rest) else EmptyString
  end.

Fixpoint all_sep (p : string) : bool :=
  match p with
  | EmptyString => true
  | String c rest => is_sep c && all_sep rest
  end.

Fixpoint rstrip_sep (p : string) : string :=
  match p with
  | EmptyString => EmptyString
  | String c rest =>
      match rstrip_sep rest with
      | EmptyString => if is_sep c then EmptyString else String c EmptyString
      | rest' => String c rest'
      end
  end.

Definition dirname (p : string) : string :=
  let head := upto_last_sep p in
  if truthy_str (Some head) && negb (all_sep head) then rstrip_sep head else head.

(** What [os.path.exists] and [os.access(_, os.W_OK)] answer: the state of
    the file system, probed by path. *)
Record FileSystem : Type := {
  path_exists : string -> bool;
  access_W_OK : string -> bool;
}.

End Py.

Import Py.

Notation "x <- m ;; k" := (Py.bind m (fun x => k))
  (at level 100, m at next level, right associativity, only parsing).
Notation "x <~ m ;; k" := (Py.io_bind m (fun x => k))
  (at level 100, m at next level, right associativity, only parsing).

(** ** base.py: the records of the [IVectorStore] contract *)

(** A value of a payload, of a collection's metadata or of an info
    dictionary ([Dict[str, Any]]): the code stores strings, integers and
    [None]. *)
Inductive any : Type :=
| ANone
| AStr (s : string)
| AInt (z : Z).

#[global] Instance any_eq_dec : EqDecision any.
Proof. solve_decision. Defined.

(** [str(x)], as an f-string renders a value. *)
Definition str_any (x : any) : string :=
  match x with
  | ANone => "None"
  | AStr s => s
  | AInt z => pretty z
  end.

(** ** core.py: the settings the adapters and the factory read *)

Record Settings : Type := {
  mcp_mode : string;
  chroma_persist_directory : string;
  qdrant_url : option string;
  qdrant_api_key : option string;
  qdrant_host : option string;
  qdrant_port : any;
  qdrant_grpc_port : any;
  qdrant_use_grpc : bool;
}.

(** ** chroma_client.py: the embedded adapter *)

Module Chroma.

(** The engine behind [chromadb.PersistentClient], as far as the adapter
    code under study drives it: named collections, each with the metadata
    given at creation and its records.  [create_collection] of the engine
    refuses a name that is taken. *)
Record Collection : Type := {
  metadata : gmap string any;
  records : gmap string (list Q * gmap string any);
}.

Definition client_create_collection
    (client : gmap string Collection) (name : string) (md : gmap string any)
  : result (gmap string Collection) :=
  match client !! name with
  | Some _ => Raise (ValueError ("Collection " ++ name ++ " already exists"))
  | None => Ok (<[name := {| metadata := md; records := ∅ |}]> client)
  end.

Record ChromaVectorDB : Type := {
  persist_directory : string;
  _client : option (gmap string Collection);
}.

(** [__init__]: [persist_directory or settings.chroma_persist_directory],
    and no client yet. *)
Definition __init__ (settings : Settings) (persist_directory : option string)
  : ChromaVectorDB :=
  {| persist_directory :=
       if Py.truthy_str persist_directory then default "" persist_directory
       else chroma_persist_directory settings;
     _client := None |}.

Definition metric_map : gmap string string :=
  {[ "cosine" := "cosine"; "euclidean" := "l2"; "dot" := "ip" ]}.

(** [metric_map.get(distance_metric.lower(), "cosine")]. *)
Definition mapped_metric (distance_metric : string) : string :=
  default "cosine" (metric_map !! Py.lower distance_metric).

(** [create_collection]: the metric is mapped, then the engine is asked to
    create the collection with the mapped metric and the dimension in its
    metadata.  [self._client.create_collection] on a client that is still
    [None] is an attribute error. *)
Definition create_collection
    (self : ChromaVectorDB) (name : string) (dimension : Z) (distance_metric : string)
  : result unit * ChromaVectorDB :=
  let mapped_metric := mapped_metric distance_metric in
  match _client self with
  | None =>
      (Raise (AttributeError "'NoneType' object has no attribute 'create_collection'"), self)
  | Some client =>
      match client_create_collection client name
              {[ "hnsw:space" := AStr mapped_metric; "dimension" := AInt dimension ]} with
      | Ok client' =>
          (Ok tt, {| persist_directory := persist_directory self; _client := Some client' |})
      | Raise e => (Raise e, self)
      end
  end.

(** Modelled from the spec: [get_collection_info] of the embedded adapter,
    whose body is not part of the sources at hand.  On an initialized
    adapter (its engine handle [client]) it reads the dimension and the
    metric back from the metadata stored at creation, and counts the
    records; a collection that does not exist has no info.  The values are
    read back, not inferred: what "hnsw:space" holds is reported as it is,
    so the engine's names "l2" and "ip" are reported as such, with no
    translation to the contract's "euclidean" and "dot". *)
Definition get_collection_info (client : gmap string Collection) (name : string)
  : option (gmap string any) :=
  coll ← client !! name;
  Some ({[ "name" := AStr name;
           "dimension" := default ANone (metadata coll !! "dimension");
           "vector_count" := AInt (Z.of_nat (size (records coll)));
           "distance_metric" := default ANone (metadata coll !! "hnsw:space") ]}
        : gmap string any).

(** [_distance_to_score]: a metric outside the three branches falls off the
    end of the function, which returns [None].  Python's floats are taken
    as exact rationals: the properties stated of the scores are bounds and
    orderings that rounding to the nearest float keeps. *)
Definition _distance_to_score (distance : Q) (metric : string) : result (option Q) :=
  if String.eqb metric "cosine" then
    Ok (Some (Py.max 0 (Py.min 1 (1 - distance / 2)))%Q)
  else if String.eqb metric "l2" then
    if Qeq_bool (1 + distance)%Q 0%Q then Raise (ZeroDivisionError "float division by zero")
    else Ok (Some (1 / (1 + distance))%Q)
  else if String.eqb metric "ip" then
    Ok (Some (Py.max 0 (Py.min 1 (- distance)))%Q)
  else Ok None.

End Chroma.

(** ** qdrant_client.py: the remote adapter *)

Module Qdrant.

(** [qdrant_client.models]: what the adapter reads and builds. *)
Inductive Distance : Type := COSINE | EUCLID | DOT | MANHATTAN.

Record VectorParams : Type := {
  size : Z;
  distance : Distance;
}.

(** [info.config.params.vectors] is one [VectorParams], or a dictionary of
    named ones, or absent. *)
Inductive VectorsConfig : Type :=
| Single (params : VectorParams)
| Named (params : gmap string VectorParams)
| NoVectors.

Record CollectionInfo : Type := {
  vectors : VectorsConfig;
  points_count : option Z;
}.

Inductive PointsSelector (Filter : Type) : Type :=
| PointIdsList (points : list string)
| FilterSelector (filter : Filter).
Arguments PointIdsList {Filter} points.
Arguments FilterSelector {Filter} filter.

Definition distance_map : gmap string Distance :=
  {[ "cosine" := COSINE; "euclidean" := EUCLID; "dot" := DOT ]}.

(** [distance_map.get(distance_metric.lower(), models.Distance.COSINE)]. *)
Definition distance_metric_val (distance_metric : string) : Distance :=
  default COSINE (distance_map !! Py.lower distance_metric).

Section Adapter.

(** The remote engine as the pooled client reaches it.  [Client] is the
    state of the service; reading a collection's description and
    deleting the points a selector names are its calls, and each may
    raise.  A deletion leaves the service in a new state, whatever its
    outcome.  [str_Distance] is [str] on the library's enumeration and
    [_build_filter] the adapter's translation of a filter dictionary,
    neither of which the sources at hand define. *)
Context {Client Filter : Type}.
Variable client_get_collection : Client -> string -> result CollectionInfo.
Variable client_delete :
  Client -> string -> PointsSelector Filter -> result unit * Client.
Variable str_Distance : Distance -> string.
Variable _build_filter : gmap string any -> result Filter.

Record QdrantVectorDB : Type := {
  url : option string;
  api_key : option string;
  host : option string;
  port : any;
  grpc_port : any;
  use_grpc : bool;
  client : option Client;
}.

Definition with_client (self : QdrantVectorDB) (c : Client) : QdrantVectorDB :=
  {| url := url self; api_key := api_key self; host := host self;
     port := port self; grpc_port := grpc_port self; use_grpc := use_grpc self;
     client := Some c |}.

(** [x or y] on the optional settings of [__init__]. *)
Definition or_str (x y : option string) : option string :=
  if Py.truthy_str x then x else y.

Definition or_int (x y : any) : any :=
  match x with
  | AInt z => if (z =? 0)%Z then y else x
  | AStr s => if Py.truthy_str (Some s) then x else y
  | ANone => y
  end.

Definition __init__ (settings : Settings)
    (host : option string) (port grpc_port : any) (use_grpc : option bool)
    (url api_key : option string) : QdrantVectorDB :=
  {| url := or_str url (qdrant_url settings);
     api_key := or_str api_key (qdrant_api_key settings);
     host := or_str host (qdrant_host settings);
     port := or_int port (qdrant_port settings);
     grpc_port := or_int grpc_port (qdrant_grpc_port settings);
     use_grpc := default (qdrant_use_grpc settings) use_grpc;
     client := None |}.

(** [self.client.<attr>]: an attribute of [None] does not exist. *)
Definition self_client (self : QdrantVectorDB) (attr : string) : result Client :=
  match client self with
  | Some c => Ok c
  | None => Raise (AttributeError ("'NoneType' object has no attribute '" ++ attr ++ "'"))
  end.

(** The two [if] statements that map the engine's name of a distance
    back; the second tests the variable the first may have assigned. *)
Definition map_back (distance_metric : string) : string :=
  let distance_metric :=
    if Py.contains "cosine" distance_metric then "cosine" else distance_metric in
  if Py.contains "euclid" distance_metric then "euclidean" else distance_metric.

(** [get_collection_info].  [dimension] and [distance_metric] are bound
    only under the [isinstance] test; reading them unbound raises, inside
    the [try].  Every exception ends in [return None]. *)
Definition get_collection_info (self : QdrantVectorDB) (name : string)
  : result (option (gmap string any)) :=
  Py.try_except
    (c <- self_client self "get_collection" ;;
     info <- client_get_collection c name ;;
     let config := vectors info in
     let locals :=
       match config with
       | Single config =>
           Some (size config, map_back (Py.lower (str_Distance (distance config))))
       | _ => None
       end in
     match locals with
     | Some (dimension, distance_metric) =>
         Ok (Some ({[ "name" := AStr name;
                      "dimension" := AInt dimension;
                      "vector_count" := from_option AInt ANone (points_count info);
                      "distance_metric" := AStr distance_metric ]} : gmap string any))
     | None =>
         Raise (UnboundLocalError
                  "cannot access local variable 'dimension' where it is not associated with a value")
     end)
    (fun _ => Ok None).

(** [info.points_count or 0]. *)
Definition or_0 (n : option Z) : Z := default 0%Z n.

(** The calls of [delete] after its guard, on the service behind the
    client. *)
Definition delete_on (collection : string)
    (ids : option (list string)) (filters : option (gmap string any))
  : Py.io Client Z :=
  (* Get count before deletion *)
  pre_info <~ Py.io_read (fun c => client_get_collection c collection) ;;
  let pre_count := or_0 (points_count pre_info) in
  (* Delete by IDs *)
  _ <~ (if Py.truthy_list ids then
          fun c => client_delete c collection (PointIdsList (default [] ids))
        else Py.io_ret tt) ;;
  (* Delete by filter *)
  _ <~ (if Py.truthy_dict filters then
          qdrant_filter <~ Py.io_lift (_build_filter (default ∅ filters)) ;;
          fun c => client_delete c collection (FilterSelector qdrant_filter)
        else Py.io_ret tt) ;;
  (* Get count after deletion *)
  post_info <~ Py.io_read (fun c => client_get_collection c collection) ;;
  let post_count := or_0 (points_count post_info) in
  Py.io_ret (Z.max 0 (pre_count - post_count)).

(** [delete]: the guard on the two optional arguments comes first. *)
Definition delete (self : QdrantVectorDB) (collection : string)
    (ids : option (list string)) (filters : option (gmap string any))
  : result Z * QdrantVectorDB :=
  match ids, filters with
  | None, None =>
      (Raise (ValueError "Either ids or filters must be provided"), self)
  | _, _ =>
      match self_client self "get_collection" with
      | Raise e => (Raise e, self)
      | Ok c =>
          let '(r, c') := delete_on collection ids filters c in
          (r, with_client self c')
      end
  end.

End Adapter.

End Qdrant.

(** ** vectordb/__init__.py: validation and the factory *)

Module Factory.

(** [os.path.dirname(persist_dir) or "."]. *)
Definition parent_dir_of (persist_dir : string) : string :=
  if Py.truthy_str (Some (Py.dirname persist_dir)) then Py.dirname persist_dir else ".".

Definition _validate_chroma_config (os : Py.FileSystem) (settings : Settings)
  : result unit :=
  let persist_dir := chroma_persist_directory settings in
  if negb (Py.truthy_str (Some persist_dir)) then
    Raise (VectorDBConfigurationError
             ("ChromaDB persist directory not configured. " ++
              "Set DOCVECTOR_CHROMA_PERSIST_DIRECTORY environment variable."))
  else
    (* Check parent directory is writable *)
    let parent_dir := parent_dir_of persist_dir in
    if Py.path_exists os parent_dir && negb (Py.access_W_OK os parent_dir) then
      Raise (VectorDBConfigurationError
               ("ChromaDB persist directory parent '" ++ parent_dir ++
                "' is not writable. " ++ "Check file permissions."))
    else Ok tt.

(** [isinstance(port, int) and port > 0], negated in the code. *)
Definition positive_int (port : any) : bool :=
  match port with
  | AInt z => (0 <? z)%Z
  | _ => false
  end.

Definition _validate_qdrant_config (settings : Settings) : result unit :=
  (* Cloud mode: Both URL and API key required *)
  if Py.truthy_str (qdrant_url settings) && Py.truthy_str (qdrant_api_key settings) then
    Ok tt
  (* URL without API key *)
  else if Py.truthy_str (qdrant_url settings) then
    Raise (VectorDBConfigurationError
             ("Qdrant URL provided but API key missing. " ++
              "Set DOCVECTOR_QDRANT_API_KEY for cloud deployment."))
  (* API key without URL *)
  else if Py.truthy_str (qdrant_api_key settings) then
    Raise (VectorDBConfigurationError
             ("Qdrant API key provided but URL missing. " ++
              "Set DOCVECTOR_QDRANT_URL for cloud deployment."))
  (* Self-hosted mode: Validate host and port *)
  else if negb (Py.truthy_str (qdrant_host settings)) then
    Raise (VectorDBConfigurationError
             ("Qdrant host not configured. " ++
              "Set DOCVECTOR_QDRANT_HOST or DOCVECTOR_QDRANT_URL."))
  else if negb (positive_int (qdrant_port settings)) then
    Raise (VectorDBConfigurationError
             ("Invalid Qdrant port: " ++ str_any (qdrant_port settings) ++ ". " ++
              "Must be a positive integer."))
  else Ok tt.

Section GetVectorDb.

Context {Client : Type}.

(** What the factory hands out: one of the two implementations of the
    interface. *)
Inductive IVectorStore : Type :=
| ChromaStore (db : Chroma.ChromaVectorDB)
| QdrantStore (db : @Qdrant.QdrantVectorDB Client).

(** The body of the [try] of [get_vector_db]. *)
Definition create (os : Py.FileSystem) (settings : Settings) (effective_mode : string)
  : result IVectorStore :=
  if String.eqb effective_mode "local" then
    _ <- _validate_chroma_config os settings ;;
    Ok (ChromaStore
          (Chroma.__init__ settings (Some (chroma_persist_directory settings))))
  else
    _ <- _validate_qdrant_config settings ;;
    (* Cloud deployment *)
    if Py.truthy_str (qdrant_url settings) && Py.truthy_str (qdrant_api_key settings) then
      Ok (QdrantStore
            (Qdrant.__init__ settings None ANone ANone None
               (qdrant_url settings) (qdrant_api_key settings)))
    (* Self-hosted deployment *)
    else
      Ok (QdrantStore
            (Qdrant.__init__ settings (qdrant_host settings) (qdrant_port settings)
               ANone (Some (qdrant_use_grpc settings)) None None)).

(** [mode or settings.mcp_mode]. *)
Definition effective_mode_of (settings : Settings) (mode : option string) : string :=
  if Py.truthy_str mode then default "" mode else mcp_mode settings.

Definition get_vector_db (os : Py.FileSystem) (settings : Settings) (mode : option string)
  : result IVectorStore :=
  (* Determine effective mode *)
  let effective_mode := effective_mode_of settings mode in
  (* Validate mode *)
  if negb (bool_decide (effective_mode ∈ ["local"; "cloud"; "hybrid"])) then
    Raise (ValueError ("Invalid mode: '" ++ effective_mode ++ "'"))
  else
    Py.try_except (create os settings effective_mode)
      (fun e =>
         match e with
         | VectorDBConfigurationError _ => Raise e
         | _ =>
             Raise (VectorDBConfigurationError
                      ("Failed to create vector database: " ++ Py.str_exn e))
         end).

End GetVectorDb.

End Factory.

(** ** The hybrid scorer *)

Module Hybrid.

(** One entry of a ranked list: the vector results of an adapter, the
    keyword results of the lexical index and the fused list all come as
    id, score and payload. *)
Record Hit : Type := {
  id : string;
  score : Q;
  payload : gmap string any;
}.

Definition find_hit (results : list Hit) (i : string) : option Hit :=
  List.find (fun r => String.eqb (id r) i) results.

(** The score a list gives an id; a list that does not mention the id
    gives none. *)
Definition score_of (results : list Hit) (i : string) : option Q :=
  score <$> find_hit results i.

(** [DOCVECTOR_SEARCH_VECTOR_WEIGHT] and [DOCVECTOR_SEARCH_KEYWORD_WEIGHT]. *)
Definition default_vector_weight : Q := 7 # 10.
Definition default_keyword_weight : Q := 3 # 10.

(** Modelled from the spec: the weighted combination, a missing score
    counting as zero.  The scorer's code is not part of the sources at
    hand; only its two weights are. *)
Definition combined (w_v w_k : Q) (vector_results keyword_results : list Hit)
    (i : string) : Q :=
  (w_v * default 0 (score_of vector_results i)
   + w_k * default 0 (score_of keyword_results i))%Q.

(** Modelled from the spec: on a conflict the payload of the vector
    backend wins. *)
Definition payload_of (vector_results keyword_results : list Hit) (i : string)
  : gmap string any :=
  match find_hit vector_results i, find_hit keyword_results i with
  | Some r, _ => payload r
  | None, Some r => payload r
  | None, None => ∅
  end.

(** Modelled from the spec: one entry per id of either list. *)
Definition merged (w_v w_k : Q) (vector_results keyword_results : list Hit)
  : list Hit :=
  (fun i => {| id := i;
               score := combined w_v w_k vector_results keyword_results i;
               payload := payload_of vector_results keyword_results i |})
    <$> remove_dups ((id <$> vector_results) ++ (id <$> keyword_results)).

(** Modelled from the spec: descending by combined score, ties broken by
    ascending id. *)
Definition before (a b : Hit) : bool :=
  match (score b ?= score a)%Q with
  | Lt => true
  | Eq => String.leb (id a) (id b)
  | Gt => false
  end.

Definition ranked (w_v w_k : Q) (vector_results keyword_results : list Hit)
  : list Hit :=
  merge_sort before (merged w_v w_k vector_results keyword_results).

(** Modelled from the spec: the ranked list is truncated to the limit and
    the entries below the floor are dropped. *)
Definition hybrid_search (w_v w_k : Q) (limit : nat) (floor : Q)
    (vector_results keyword_results : list Hit) : list Hit :=
  List.filter (fun r => Qle_bool floor (score r))
    (take limit (ranked w_v w_k vector_results keyword_results)).

(** A list of hits is what a list of id and score pairs says, scores up
    to equality of rationals. *)
Definition reads_as (hits : list Hit) (expected : list (string * Q)) : Prop :=
  Forall2 (fun r e => id r = e.1 ∧ (score r == e.2)%Q) hits expected.

End Hybrid.

(** ** An in-memory engine behind the remote adapter

    A service that keeps its collections in a map, used to run the remote
    adapter on concrete inputs: points are payloads by id, a filter is a
    dictionary of required payload values, and a collection that does not
    exist is the service's 404. *)

Module Mem.

Record Coll : Type := {
  params : Qdrant.VectorParams;
  points : gmap string (gmap string any);
}.

Definition not_found (name : string) : exn :=
  UnexpectedResponse (Some 404%Z) ("Not found: Collection `" ++ name ++ "` doesn't exist!").

Definition get_collection (c : gmap string Coll) (name : string)
  : result Qdrant.CollectionInfo :=
  match c !! name with
  | Some coll =>
      Ok {| Qdrant.vectors := Qdrant.Single (params coll);
            Qdrant.points_count := Some (Z.of_nat (size (points coll))) |}
  | None => Raise (not_found name)
  end.

Definition matches (f pl : gmap string any) : bool :=
  bool_decide (map_Forall (fun k v => pl !! k = Some v) f).

Definition delete (c : gmap string Coll) (name : string)
    (selector : Qdrant.PointsSelector (gmap string any))
  : result unit * gmap string Coll :=
  match c !! name with
  | Some coll =>
      let points' :=
        match selector with
        | Qdrant.PointIdsList ids => foldr base.delete (points coll) ids
        | Qdrant.FilterSelector f => filter (fun kv => matches f kv.2 = false) (points coll)
        end in
      (Ok tt, <[name := {| params := params coll; points := points' |}]> c)
  | None => (Raise (not_found name), c)
  end.

Definition str_Distance (d : Qdrant.Distance) : string :=
  match d with
  | Qdrant.COSINE => "Cosine"
  | Qdrant.EUCLID => "Euclid"
  | Qdrant.DOT => "Dot"
  | Qdrant.MANHATTAN => "Manhattan"
  end.

Definition _build_filter (filters : gmap string any) : result (gmap string any) :=
  Ok filters.

(** A service that cannot be reached: every call fails on the connection. *)
Definition unreachable : exn := ResponseHandlingException "All connection attempts failed".

Definition down_get_collection (c : gmap string Coll) (name : string)
  : result Qdrant.CollectionInfo := Raise unreachable.

(** Sample data: one collection of three points, two of them from "react". *)
Definition docs : gmap string Coll :=
  {[ "docs" :=
       {| params := {| Qdrant.size := 3; Qdrant.distance := Qdrant.COSINE |};
          points := {[ "p1" := {[ "source" := AStr "react" ]};
                       "p2" := {[ "source" := AStr "react" ]};
                       "p3" := {[ "source" := AStr "vue" ]} ]} |} ]}.

(** [docs] once the points from "react" are deleted, and the description
    the service gives of the collection when it holds [n] points. *)
Definition docs_without_react : gmap string Coll :=
  (delete docs "docs" (Qdrant.FilterSelector {[ "source" := AStr "react" ]})).2.

Definition info_of (n : Z) : Qdrant.CollectionInfo :=
  {| Qdrant.vectors := Qdrant.Single {| Qdrant.size := 3; Qdrant.distance := Qdrant.COSINE |};
     Qdrant.points_count := Some n |}.

Definition settings : Settings :=
  {| mcp_mode := "cloud";
     chroma_persist_directory := "./data/chroma";
     qdrant_url := None;
     qdrant_api_key := None;
     qdrant_host := Some "localhost";
     qdrant_port := AInt 6333;
     qdrant_grpc_port := AInt 6334;
     qdrant_use_grpc := false |}.

(** The adapter as [QdrantVectorDB(host="localhost", port=6333)] leaves
    it, and the same adapter once it holds a client on [docs]. *)
Definition fresh : @Qdrant.QdrantVectorDB (gmap string Coll) :=
  Qdrant.__init__ settings (Some "localhost") (AInt 6333) ANone None None None.

Definition connected : @Qdrant.QdrantVectorDB (gmap string Coll) :=
  Qdrant.with_client fresh docs.

End Mem.

(** ** Vocabulary of the specification *)

(** [clamp(x, lo, hi)] as the specification writes it. *)
Definition clamp (x lo hi : Q) : Q :=
  if Qlt_le_dec x lo then lo else if Qlt_le_dec hi x then hi else x.

(** A call returned the score [q], up to equality of rationals. *)
Definition returns_score (r : result (option Q)) (q : Q) : Prop :=
  exists s, r = Ok (Some s) /\ (s == q)%Q.

(** The closed set of metric names of the contract. *)
Definition metrics : list string := ["cosine"; "euclidean"; "dot"].

(** The metric recorded for a collection of the embedded engine. *)
Definition stored_space (self : Chroma.ChromaVectorDB) (name : string) : option any :=
  client ← Chroma._client self; coll ← client !! name; Chroma.metadata coll !! "hnsw:space".

(** The embedded adapter right after [initialize] on an empty directory. *)
Definition chroma_empty : Chroma.ChromaVectorDB :=
  {| Chroma.persist_directory := "./data/chroma"; Chroma._client := Some ∅ |}.

(** The lists of the specification's fusion example. *)
Definition example_vector_results : list Hybrid.Hit :=
  [ {| Hybrid.id := "a"; Hybrid.score := 9 # 10; Hybrid.payload := ∅ |} ].

Definition example_keyword_results : list Hybrid.Hit :=
  [ {| Hybrid.id := "a"; Hybrid.score := 5 # 10; Hybrid.payload := ∅ |};
    {| Hybrid.id := "b"; Hybrid.score := 8 # 10; Hybrid.payload := ∅ |} ].

(** A file system in which only the root and the working directory exist,
    and only the working directory is writable. *)
Definition bare_fs : Py.FileSystem :=
  {| Py.path_exists := fun p => bool_decide (p ∈ ["/"; "."]);
     Py.access_W_OK := fun p => bool_decide (p = ".") |}.

(** Settings of an installation; the persist directory sits under a parent
    that [bare_fs] does not have. *)
Definition local_settings : Settings :=
  {| mcp_mode := "local";
     chroma_persist_directory := "/srv/docvector/chroma";
     qdrant_url := None;
     qdrant_api_key := None;
     qdrant_host := Some "localhost";
     qdrant_port := AInt 6333;
     qdrant_grpc_port := AInt 6334;
     qdrant_use_grpc := false |}.

(** Cloud settings with the URL set and the key forgotten, and the
    reverse; host and port are valid for a self-hosted service. *)
Definition url_only_settings : Settings :=
  {| mcp_mode := "cloud";
     chroma_persist_directory := "./data/chroma";
     qdrant_url := Some "https://xxx.cloud.qdrant.io";
     qdrant_api_key := None;
     qdrant_host := Some "localhost";
     qdrant_port := AInt 6333;
     qdrant_grpc_port := AInt 6334;
     qdrant_use_grpc := false |}.

Definition key_only_settings : Settings :=
  {| mcp_mode := "cloud";
     chroma_persist_directory := "./data/chroma";
     qdrant_url := Some "";
     qdrant_api_key := Some "test-key";
     qdrant_host := Some "localhost";
     qdrant_port := AInt 6333;
     qdrant_grpc_port := AInt 6334;
     qdrant_use_grpc := false |}.

(** A file system in which every path exists and none is writable. *)
Definition readonly_fs : Py.FileSystem :=
  {| Py.path_exists := fun _ => true; Py.access_W_OK := fun _ => false |}.



(** ** Renderings of the distance enumeration

    [str] of a member of [models.Distance] as Python's [Enum] renders it,
    class name first, which is the form the comment in
    [get_collection_info] expects ("distance.cosine" once lowercased). *)
Definition enum_str (d : Qdrant.Distance) : string :=
  match d with
  | Qdrant.COSINE => "Distance.COSINE"
  | Qdrant.EUCLID => "Distance.EUCLID"
  | Qdrant.DOT => "Distance.DOT"
  | Qdrant.MANHATTAN => "Distance.MANHATTAN"
  end.

(** The description the service gives of a collection created with the
    metric string [distance_metric]. *)
Definition created_info (dimension : Z) (distance_metric : string) (count : option Z)
  : Qdrant.CollectionInfo :=
  {| Qdrant.vectors :=
       Qdrant.Single {| Qdrant.size := dimension;
                        Qdrant.distance := Qdrant.distance_metric_val distance_metric |};
     Qdrant.points_count := count |}.

(** A service whose collections are configured with named vectors, and one
    that describes every collection as created with the metric "DOT". *)
Definition named_get_collection (c : gmap string Mem.Coll) (name : string)
  : result Qdrant.CollectionInfo :=
  Ok {| Qdrant.vectors :=
          Qdrant.Named {[ "text" := {| Qdrant.size := 384;
                                       Qdrant.distance := Qdrant.COSINE |} ]};
        Qdrant.points_count := Some 3%Z |}.

Definition dot_get_collection (c : gmap string Mem.Coll) (name : string)
  : result Qdrant.CollectionInfo :=
  Ok (created_info 384 "DOT" (Some 0%Z)).

(** ** Calls to the operating system

    What a call that touches the file system or builds a database engine
    ends with: its value, or the exception it raised. *)

Module Eff.

Inductive outcome (E A : Type) : Type :=
| Done (a : A)
| Failed (e : E).
Arguments Done {E A} a.
Arguments Failed {E A} e.

(** The line feed that "\n" denotes. *)
Definition nl : string := String "010"%char EmptyString.

(** [s.replace(a, b)] for single characters. *)
Fixpoint replace (a b : ascii) (s : string) : string :=
  match s with
  | EmptyString => EmptyString
  | String c rest => String (if Ascii.eqb c a then b else c) (replace a b rest)
  end.

Fixpoint drop (n : nat) (s : string) : string :=
  match n, s with
  | S k, String _ rest => drop k rest
  | _, _ => s
  end.

(** [s.split(sep)[-1]] for a separator that is not empty: the text after
    the last of the occurrences of [sep] that a scan from the left finds,
    or all of [s] when there is none.  [skip] counts the characters of an
    occurrence that are still to pass. *)
Fixpoint last_piece (sep s : string) (skip : nat) : option string :=
  match s with
  | EmptyString => None
  | String _ rest =>
      match skip with
      | S k => last_piece sep rest k
      | O =>
          if String.prefix sep s then
            Some (default (drop (String.length sep) s)
                    (last_piece sep rest (String.length sep - 1)))
          else last_piece sep rest 0
      end
  end.

Definition split_last (sep s : string) : string := default s (last_piece sep s 0).

End Eff.

(** ** db/__init__.py: the database engine *)

Module Db.

(** The two settings [get_engine] reads. *)
Record DatabaseSettings : Type := {
  database_url : string;
  environment : string;
}.

(** The arguments of [create_async_engine]; a keyword that a call does not
    pass is [None]. *)
Record EngineArgs : Type := {
  url : string;
  echo : bool;
  connect_args : option (gmap string bool);
  pool_pre_ping : option bool;
  pool_size : option Z;
  max_overflow : option Z;
}.

Section GetEngine.

(** [os.makedirs(_, exist_ok=True)] acts on the file system [FS] and
    [create_async_engine] builds an [AsyncEngine]; each may raise.  The
    module-level [_engine] is part of the state [get_engine] runs in. *)
Context {FS AsyncEngine Err : Type}.
Variable makedirs : FS -> string -> Eff.outcome Err unit * FS.
Variable create_async_engine : EngineArgs -> Eff.outcome Err AsyncEngine.

Record World : Type := {
  fs : FS;
  _engine : option AsyncEngine;
}.

(** The directory of a SQLite URL's file, created when it is not empty. *)
Definition create_sqlite_directory (settings : DatabaseSettings) (files : FS)
  : Eff.outcome Err unit * FS :=
  if String.prefix "sqlite" (database_url settings) then
    (* Extract path from URL *)
    let db_path := Eff.split_last "///" (database_url settings) in
    let db_dir := Py.dirname db_path in
    if Py.truthy_str (Some db_dir) then makedirs files db_dir
    else (Eff.Done tt, files)
  else (Eff.Done tt, files).

Definition engine_args (settings : DatabaseSettings) : EngineArgs :=
  if Py.contains "sqlite" (database_url settings) then
    {| url := database_url settings;
       echo := String.eqb (environment settings) "development";
       connect_args := Some {[ "check_same_thread" := false ]};
       (* No pooling for SQLite *)
       pool_pre_ping := None; pool_size := None; max_overflow := None |}
  else
    {| url := database_url settings;
       echo := String.eqb (environment settings) "development";
       connect_args := None;
       pool_pre_ping := Some true; pool_size := Some 10%Z; max_overflow := Some 20%Z |}.

Definition get_engine (settings : DatabaseSettings) (w : World)
  : Eff.outcome Err AsyncEngine * World :=
  match _engine w with
  | Some engine => (Eff.Done engine, w)
  | None =>
      match create_sqlite_directory settings (fs w) with
      | (Eff.Failed e, files) => (Eff.Failed e, {| fs := files; _engine := None |})
      | (Eff.Done _, files) =>
          match create_async_engine (engine_args settings) with
          | Eff.Failed e => (Eff.Failed e, {| fs := files; _engine := None |})
          | Eff.Done engine =>
              (Eff.Done engine, {| fs := files; _engine := Some engine |})
          end
      end
  end.

End GetEngine.

End Db.

(** ** cli.py: the [init] command *)

Module Cli.

(** A path as [pathlib] holds it once resolved: the anchor (the root, with
    the drive on Windows) and the names below it. *)
Record Path : Type := {
  anchor : string;
  parts : list string;
}.

(** [path / name] for a single name. *)
Definition truediv (path : Path) (name : string) : Path :=
  {| anchor := anchor path; parts := parts path ++ [name] |}.

(** The separator of the flavour: a backslash where [os.name] is "nt". *)
Definition sep (nt : bool) : ascii := if nt then "\"%char else "/"%char.

(** [str(path)] and [path.as_posix()], which is [str(path)] with the
    flavour's separator replaced by a slash. *)
Definition str_path (nt : bool) (path : Path) : string :=
  anchor path ++ String.concat (String (sep nt) EmptyString) (parts path).

Definition as_posix (nt : bool) (path : Path) : string :=
  Eff.replace (sep nt) "/"%char (str_path nt path).

(** The five lines written to ".env". *)
Definition env_text (mode db_url chroma_dir : string) : string :=
  "DOCVECTOR_MCP_MODE=" ++ mode ++ Eff.nl ++
  "DOCVECTOR_DATABASE_URL=" ++ db_url ++ Eff.nl ++
  "DOCVECTOR_CHROMA_PERSIST_DIRECTORY=" ++ chroma_dir ++ Eff.nl ++
  "DOCVECTOR_EMBEDDING_PROVIDER=local" ++ Eff.nl ++
  "# Add other settings as needed" ++ Eff.nl.

Section Init.

(** The process the command runs in: whether [os.name] is "nt", how
    [Path(_).resolve()] resolves a directory name, and the file system,
    on which [mkdir(parents=_, exist_ok=True)] creates a directory,
    [exists()] probes a path and [open(_, "w")] with its writes stores a
    text.  [mkdir] and the writing may raise; [str_err] is the [str] of
    what they raise. *)
Context {FS Err : Type}.
Variable nt : bool.
Variable resolve : string -> Path.
Variable mkdir : FS -> Path -> bool -> Eff.outcome Err unit * FS.
Variable path_exists : FS -> string -> bool.
Variable write_text : FS -> string -> string -> Eff.outcome Err unit * FS.
Variable str_err : Err -> string.

(** The file system and what [console.print] has printed so far. *)
Record World : Type := {
  fs : FS;
  console : list string;
}.

Definition ret {A} (a : A) : World -> Eff.outcome Err A * World :=
  fun w => (Eff.Done a, w).

Definition bind {A B} (m : World -> Eff.outcome Err A * World)
    (k : A -> World -> Eff.outcome Err B * World)
  : World -> Eff.outcome Err B * World :=
  fun w =>
    match m w with
    | (Eff.Done a, w') => k a w'
    | (Eff.Failed e, w') => (Eff.Failed e, w')
    end.

Definition print (line : string) : World -> Eff.outcome Err unit * World :=
  fun w => (Eff.Done tt, {| fs := fs w; console := console w ++ [line] |}).

Definition on_fs (call : FS -> Eff.outcome Err unit * FS)
  : World -> Eff.outcome Err unit * World :=
  fun w => let '(r, files) := call (fs w) in (r, {| fs := files; console := console w |}).

(** The database URL: the path in POSIX form on Windows, as it is
    elsewhere. *)
Definition db_url_of (db_path : Path) : string :=
  if nt then "sqlite+aiosqlite:///" ++ as_posix nt db_path
  else "sqlite+aiosqlite:///" ++ str_path nt db_path.

(** The part of [init] under [if mode == "local"]. *)
Definition init_local (mode : string) (data_path : Path)
  : World -> Eff.outcome Err unit * World :=
  (* Create subdirectories *)
  let sqlite_dir := truediv data_path "sqlite" in
  let chroma_dir := truediv data_path "chroma" in
  bind (on_fs (fun files => mkdir files sqlite_dir false)) (fun _ =>
  bind (on_fs (fun files => mkdir files chroma_dir false)) (fun _ =>
  bind (print ("  Created SQLite directory: " ++ str_path nt sqlite_dir)) (fun _ =>
  bind (print ("  Created ChromaDB directory: " ++ str_path nt chroma_dir)) (fun _ =>
  (* Generate database URL *)
  let db_path := truediv sqlite_dir "docvector.db" in
  let db_url := db_url_of db_path in
  (* Write .env file *)
  fun w =>
    if negb (path_exists (fs w) ".env") then
      bind (on_fs (fun files =>
                     write_text files ".env"
                       (env_text mode db_url (as_posix nt chroma_dir)))) (fun _ =>
      print "[green]✓ Created .env configuration[/]") w
    else print "[yellow]! .env already exists, skipping creation[/]" w)))).

(** The body of the [try]. *)
Definition init_body (mode : string) (data_path : Path)
  : World -> Eff.outcome Err unit * World :=
  (* Create main data directory *)
  bind (on_fs (fun files => mkdir files data_path true)) (fun _ =>
  bind (print ("  Created data directory: " ++ str_path nt data_path)) (fun _ =>
  bind (if String.eqb mode "local" then init_local mode data_path else ret tt) (fun _ =>
  bind (print "[bold green]✓ Initialization complete![/]") (fun _ =>
  bind (print (Eff.nl ++ "Next steps:")) (fun _ =>
  bind (print "  1. Review .env configuration") (fun _ =>
  bind (print "  2. Run: docvector index <url>") (fun _ =>
  print "  3. Run: docvector search <query>"))))))).

(** [init]: the exit code of the command, 1 for [typer.Exit(code=1)], and
    the world it leaves. *)
Definition init (mode data_dir : string) (w : World) : Z * World :=
  let w :=
    {| fs := fs w;
       console := console w ++ ["[bold blue]Initializing DocVector in " ++ mode ++ " mode...[/]"] |} in
  (* Resolve absolute path *)
  let data_path := resolve data_dir in
  match init_body mode data_path w with
  | (Eff.Done _, w') => (0%Z, w')
  | (Eff.Failed e, w') =>
      (1%Z, {| fs := fs w';
               console := console w' ++ ["[bold red]Initialization failed:[/] " ++ str_err e] |})
  end.

(** What the file system owes [init] for a second run to find the first
    one's work: [is_dir] tells a directory, which [mkdir] makes, leaves as
    it is when it exists and never removes, which writing a file never
    removes either; and a file that was written exists. *)
Record FsLaws (is_dir : FS -> Path -> bool) : Prop := {
  mkdir_makes : forall f p b f',
    mkdir f p b = (Eff.Done tt, f') -> is_dir f' p = true;
  mkdir_existing : forall f p b,
    is_dir f p = true -> mkdir f p b = (Eff.Done tt, f);
  mkdir_keeps : forall f p b q r f',
    is_dir f q = true -> mkdir f p b = (r, f') -> is_dir f' q = true;
  write_keeps : forall f n c q r f',
    is_dir f q = true -> write_text f n c = (r, f') -> is_dir f' q = true;
  write_makes : forall f n c f',
    write_text f n c = (Eff.Done tt, f') -> path_exists f' n = true;
}.

End Init.

End Cli.

(** ** A file system in memory

    Directories and files by their POSIX path, for running [init] and
    [get_engine]: a directory that exists is made again without effect, a
    file in the way of a directory or a directory in the way of a file is
    an error, and without [parents] the parent has to exist. *)

Module MemFs.

Record T : Type := {
  dirs : gset string;
  files : gmap string string;
}.

Definition parent (path : Cli.Path) : Cli.Path :=
  {| Cli.anchor := Cli.anchor path;
     Cli.parts := take (length (Cli.parts path) - 1) (Cli.parts path) |}.

(** The path and the directories above it. *)
Definition lineage (path : Cli.Path) : list string :=
  (fun k => Cli.str_path false {| Cli.anchor := Cli.anchor path;
                                  Cli.parts := take k (Cli.parts path) |})
    <$> seq 0 (S (length (Cli.parts path))).

Definition mkdir (t : T) (path : Cli.Path) (parents : bool)
  : Eff.outcome string unit * T :=
  let name := Cli.str_path false path in
  if bool_decide (name ∈ dirs t) then (Eff.Done tt, t)
  else if bool_decide (is_Some (files t !! name)) then
    (Eff.Failed ("[Errno 17] File exists: '" ++ name ++ "'"), t)
  else if parents then
    (Eff.Done tt, {| dirs := list_to_set (lineage path) ∪ dirs t; files := files t |})
  else if bool_decide (Cli.str_path false (parent path) ∈ dirs t) then
    (Eff.Done tt, {| dirs := {[ name ]} ∪ dirs t; files := files t |})
  else (Eff.Failed ("[Errno 2] No such file or directory: '" ++ name ++ "'"), t).

Definition is_dir (t : T) (path : Cli.Path) : bool :=
  bool_decide (Cli.str_path false path ∈ dirs t).

Definition path_exists (t : T) (name : string) : bool :=
  bool_decide (name ∈ dirs t) || bool_decide (is_Some (files t !! name)).

Definition write_text (t : T) (name content : string) : Eff.outcome string unit * T :=
  if bool_decide (name ∈ dirs t) then
    (Eff.Failed ("[Errno 21] Is a directory: '" ++ name ++ "'"), t)
  else (Eff.Done tt, {| dirs := dirs t; files := <[name := content]> (files t) |}).

Definition makedirs (t : T) (name : string) : Eff.outcome string unit * T :=
  if bool_decide (is_Some (files t !! name)) then
    (Eff.Failed ("[Errno 17] File exists: '" ++ name ++ "'"), t)
  else (Eff.Done tt, {| dirs := {[ name ]} ∪ dirs t; files := files t |}).

(** [Path(_).resolve()] in the working directory "/home/user/project", for
    the default data directory, one absolute directory, and plain names. *)
Definition resolve (data_dir : string) : Cli.Path :=
  if String.eqb data_dir "./data" then
    {| Cli.anchor := "/"; Cli.parts := ["home"; "user"; "project"; "data"] |}
  else if String.eqb data_dir "/tmp/docvector-test" then
    {| Cli.anchor := "/"; Cli.parts := ["tmp"; "docvector-test"] |}
  else {| Cli.anchor := "/"; Cli.parts := ["home"; "user"; "project"; data_dir] |}.

(** A project directory without ".env", and one that has it. *)
Definition project : T :=
  {| dirs := {[ "/"; "/home"; "/home/user"; "/home/user/project" ]}; files := ∅ |}.

Definition configured : T :=
  {| dirs := dirs project; files := {[ ".env" := "DOCVECTOR_MCP_MODE=cloud" ]} |}.

(** A database engine stands for the arguments it was created with. *)
Definition create_async_engine (args : Db.EngineArgs) : Eff.outcome string Db.EngineArgs :=
  Eff.Done args.

Definition sqlite_settings : Db.DatabaseSettings :=
  {| Db.database_url := "sqlite+aiosqlite:///./data/sqlite/docvector.db";
     Db.environment := "development" |}.

Definition memory_settings : Db.DatabaseSettings :=
  {| Db.database_url := "sqlite+aiosqlite:///:memory:"; Db.environment := "test" |}.

Definition postgres_settings : Db.DatabaseSettings :=
  {| Db.database_url := "postgresql+asyncpg://docs@db.internal/sqlite_mirror";
     Db.environment := "production" |}.

(** A project in which "./data/sqlite" is a file. *)
Definition blocked : T :=
  {| dirs := dirs project; files := {[ "./data/sqlite" := "" ]} |}.

Definition start (t : T) : @Cli.World T := {| Cli.fs := t; Cli.console := [] |}.

Definition init (mode data_dir : string) (w : @Cli.World T) : Z * @Cli.World T :=
  Cli.init false resolve mkdir path_exists write_text (fun e => e) mode data_dir w.

End MemFs.

(** The settings as the ".env" that [init] writes for "./data" gives
    them. *)
Definition init_settings : Settings :=
  {| mcp_mode := "local";
     chroma_persist_directory := "/home/user/project/data/chroma";
     qdrant_url := None;
     qdrant_api_key := None;
     qdrant_host := Some "localhost";
     qdrant_port := AInt 6333;
     qdrant_grpc_port := AInt 6334;
     qdrant_use_grpc := false |}.

(** A translation of filters that rejects every dictionary, and the sample
    collection once "p1" and "p3" are deleted by id. *)
Definition failing_build_filter (filters : gmap string any) : result (gmap string any) :=
  Raise (ValueError "Unsupported filter operator").

Definition docs_without_p1_p3 : gmap string Mem.Coll :=
  (Mem.delete Mem.docs "docs" (Qdrant.PointIdsList ["p1"; "p3"])).2.

Definition docs_emptied : gmap string Mem.Coll :=
  (Mem.delete docs_without_p1_p3 "docs"
     (Qdrant.FilterSelector {[ "source" := AStr "react" ]})).2.

(** ** base.py and qdrant_client.py: records, points and results *)

Module Base.

Record VectorRecord : Type := {
  id : string;
  vector : list Q;
  payload : gmap string any;
}.

Record VectorSearchResult : Type := {
  result_id : string;
  score : Q;  (* 0-1 range, higher is better *)
  result_payload : gmap string any;
  result_vector : option (list Q);
}.

End Base.

Module Points.

(** A point id of the service is an integer or a string. *)
Inductive ExtendedPointId : Type :=
| IdInt (n : Z)
| IdStr (s : string).

Definition str_id (i : ExtendedPointId) : string :=
  match i with
  | IdInt n => pretty n
  | IdStr s => s
  end.

Record PointStruct : Type := {
  point_id : string;
  point_vector : list Q;
  point_payload : gmap string any;
}.

(** A point of [results.points]; its payload may be [None]. *)
Record ScoredPoint : Type := {
  id : ExtendedPointId;
  score : Q;
  payload : option (gmap string any);
}.

(** Convert IVectorStore records to Qdrant points. *)
Definition to_points (records : list Base.VectorRecord) : list PointStruct :=
  (fun r => {| point_id := Base.id r;
               point_vector := Base.vector r;
               point_payload := Base.payload r |}) <$> records.

(** Convert Qdrant query results to IVectorStore format;
    [result.payload or {}] makes a missing payload the empty dictionary. *)
Definition to_results (points : list ScoredPoint) : list Base.VectorSearchResult :=
  (fun result =>
     {| Base.result_id := str_id (id result);
        Base.score := score result;  (* Already 0-1 range *)
        Base.result_payload :=
          if Py.truthy_dict (payload result) then default ∅ (payload result) else ∅;
        Base.result_vector := None  (* Don't return vectors by default *) |}) <$> points.

(** The [except UnexpectedResponse] clause around the service's
    [create_collection]: a conflict becomes [ValueError], any other
    response of the service [RuntimeError]; exceptions of other classes
    are not caught. *)
Definition map_create_errors {A} (name : string) (call : result A) : result A :=
  match call with
  | Raise (UnexpectedResponse status_code msg) =>
      if bool_decide (status_code = Some 409%Z)
         || Py.contains "already exists" (Py.lower (Py.str_exn (UnexpectedResponse status_code msg)))
      then Raise (ValueError ("Collection " ++ name ++ " already exists"))
      else Raise (RuntimeError
                    ("Failed to create collection " ++ name ++ ": "
                     ++ Py.str_exn (UnexpectedResponse status_code msg)))
  | other => other
  end.

End Points.

(** * Properties *)

(** ** The embedding on the inputs the sources show *)

Example dirname_examples :
  Py.dirname "./data/chroma" = "./data"
  /\ Py.dirname "/data" = "/"
  /\ Py.dirname "chroma" = ""
  /\ Py.dirname "/a/b/" = "/a/b"
  /\ Py.dirname "a//b" = "a"
  /\ Factory.parent_dir_of "chroma" = ".".
Proof. repeat split; reflexivity. Qed.

Example lower_examples :
  Py.lower "Cosine" = "cosine" /\ Py.lower "EUCLIDEAN" = "euclidean" /\ Py.lower "l2" = "l2".
Proof. repeat split; reflexivity. Qed.

(** Orthogonal unit vectors are at cosine distance 1, which scores 0.5. *)
Example orthogonal_cosine_score :
  returns_score (Chroma._distance_to_score 1 "cosine") 0.5.
Proof. eexists. split; reflexivity. Qed.

Example factory_modes :
  @Factory.get_vector_db unit bare_fs local_settings (Some "invalid")
    = Raise (ValueError "Invalid mode: 'invalid'")
  /\ @Factory.get_vector_db unit readonly_fs Mem.settings None
     = Ok (Factory.QdrantStore
             (Qdrant.__init__ Mem.settings (Some "localhost") (AInt 6333) ANone
                (Some false) None None)).
Proof. split; reflexivity. Qed.

Example remote_delete_by_ids_and_filter :
  (Qdrant.delete Mem.get_collection Mem.delete Mem._build_filter
     Mem.connected "docs" (Some ["p3"; "p9"]) (Some {[ "source" := AStr "react" ]})).1
  = Ok 3%Z.
Proof. reflexivity. Qed.

Example remote_collection_info :
  exists info,
    Qdrant.get_collection_info Mem.get_collection Mem.str_Distance Mem.connected "docs"
      = Ok (Some info)
    /\ info !! "dimension" = Some (AInt 3)
    /\ info !! "vector_count" = Some (AInt 3)
    /\ info !! "distance_metric" = Some (AStr "cosine").
Proof. eexists. split; [reflexivity|]. repeat split; reflexivity. Qed.

(** ** Score conversion of the embedded adapter *)

Lemma py_clamp_eq (x : Q) : (Py.max 0 (Py.min 1 x) == clamp x 0 1)%Q.
Proof.
  unfold Py.max, Py.min, clamp.
  destruct (Qlt_le_dec x 1), (Qlt_le_dec x 0), (Qlt_le_dec 1 x);
    repeat match goal with |- context [Qlt_le_dec ?a ?b] => destruct (Qlt_le_dec a b) end;
    lra.
Qed.

Lemma py_clamp_range (x : Q) : (0 <= Py.max 0 (Py.min 1 x) <= 1)%Q.
Proof.
  unfold Py.max, Py.min.
  destruct (Qlt_le_dec x 1);
    repeat match goal with |- context [Qlt_le_dec ?a ?b] => destruct (Qlt_le_dec a b) end;
    lra.
Qed.

Lemma l2_score_range (d : Q) : (0 <= d)%Q -> (0 <= 1 / (1 + d) <= 1)%Q.
Proof.
  intros Hd. split.
  - apply Qle_shift_div_l; lra.
  - apply Qle_shift_div_r; lra.
Qed.

Lemma l2_defined (d : Q) : ~ (1 + d == 0)%Q -> Qeq_bool (1 + d) 0 = false.
Proof.
  intros H. destruct (Qeq_bool (1 + d) 0) eqn:E; [|reflexivity].
  exfalso. apply H. apply Qeq_bool_eq. exact E.
Qed.

(** C1.  [_distance_to_score] computes [clamp(1 - distance/2, 0, 1)] for the
    cosine space, [1/(1 + distance)] for the l2 space (the engine's name of
    euclidean) wherever that quotient is defined, and [clamp(-distance, 0, 1)]
    for the ip space (the engine's name of dot); hence for every
    non-negative distance and each of the three metrics the score it
    returns lies between 0 and 1. *)
Theorem distance_to_score_spec (distance : Q) :
  (Chroma.mapped_metric "cosine" = "cosine"
   /\ Chroma.mapped_metric "euclidean" = "l2"
   /\ Chroma.mapped_metric "dot" = "ip")
  /\ returns_score (Chroma._distance_to_score distance "cosine")
                   (clamp (1 - distance / 2) 0 1)
  /\ (~ (1 + distance == 0)%Q ->
      returns_score (Chroma._distance_to_score distance "l2") (1 / (1 + distance)))
  /\ returns_score (Chroma._distance_to_score distance "ip") (clamp (- distance) 0 1)
  /\ ((0 <= distance)%Q ->
      forall metric, metric ∈ metrics ->
        exists s, Chroma._distance_to_score distance (Chroma.mapped_metric metric) = Ok (Some s)
                  /\ (0 <= s <= 1)%Q).
Proof.
  split; [repeat split; reflexivity|].
  split; [eexists; split; [reflexivity|apply py_clamp_eq]|].
  split.
  { intros Hne. eexists. split; [|reflexivity].
    unfold Chroma._distance_to_score. simpl. rewrite (l2_defined _ Hne). reflexivity. }
  split; [eexists; split; [reflexivity|apply py_clamp_eq]|].
  intros Hd metric Hin. unfold metrics in Hin.
  apply elem_of_cons in Hin as [->|Hin]; [|apply elem_of_cons in Hin as [->|Hin]].
  - eexists. split; [reflexivity|apply py_clamp_range].
  - assert (Hne : ~ (1 + distance == 0)%Q) by lra.
    eexists. split; [|apply (l2_score_range _ Hd)].
    change (Chroma.mapped_metric "euclidean") with "l2".
    unfold Chroma._distance_to_score. simpl. rewrite (l2_defined _ Hne). reflexivity.
  - apply list_elem_of_singleton in Hin as ->.
    eexists. split; [reflexivity|apply py_clamp_range].
Qed.

Lemma distance_to_score_spec_witness :
  (0 <= 1)%Q /\ ~ (1 + 1 == 0)%Q
  /\ returns_score (Chroma._distance_to_score 1 "l2") (1 / (1 + 1))
  /\ exists s, Chroma._distance_to_score 1 (Chroma.mapped_metric "euclidean") = Ok (Some s)
                /\ (0 <= s <= 1)%Q.
Proof.
  assert (H0 : (0 <= 1)%Q) by discriminate.
  assert (H1 : ~ (1 + 1 == 0)%Q) by discriminate.
  split; [exact H0|]. split; [exact H1|].
  destruct (distance_to_score_spec 1) as (_ & _ & Hl2 & _ & Hrange).
  split; [exact (Hl2 H1)|].
  apply (Hrange H0). unfold metrics. apply list_elem_of_In. simpl. tauto.
Defined.

(** The conversion is monotone, as the specification's testable properties
    ask: the cosine score falls from 1 at distance 0 to 0 at distance 2, and
    the l2 score falls from 1 at distance 0 below every positive bound. *)
Lemma py_clamp_monotone (x y : Q) :
  (x <= y)%Q -> (Py.max 0 (Py.min 1 x) <= Py.max 0 (Py.min 1 y))%Q.
Proof.
  intros Hxy. unfold Py.max, Py.min.
  destruct (Qlt_le_dec x 1), (Qlt_le_dec y 1);
    repeat match goal with |- context [Qlt_le_dec ?a ?b] => destruct (Qlt_le_dec a b) end;
    lra.
Qed.

Lemma cosine_score_antitone (d1 d2 : Q) :
  (d1 <= d2)%Q ->
  exists s1 s2,
    Chroma._distance_to_score d1 "cosine" = Ok (Some s1)
    /\ Chroma._distance_to_score d2 "cosine" = Ok (Some s2)
    /\ (s2 <= s1)%Q.
Proof.
  intros Hd. do 2 eexists. split; [reflexivity|]. split; [reflexivity|].
  apply py_clamp_monotone.
  assert (H : (d1 / 2 <= d2 / 2)%Q).
  { unfold Qdiv. apply Qmult_le_compat_r; [exact Hd|discriminate]. }
  revert H. generalize (d1 / 2)%Q (d2 / 2)%Q. intros h1 h2 H. lra.
Qed.

Lemma cosine_score_ends :
  returns_score (Chroma._distance_to_score 0 "cosine") 1
  /\ returns_score (Chroma._distance_to_score 2 "cosine") 0.
Proof. split; eexists; split; reflexivity. Qed.

Lemma l2_score_antitone (d1 d2 : Q) :
  (0 <= d1)%Q -> (d1 <= d2)%Q -> (1 / (1 + d2) <= 1 / (1 + d1))%Q.
Proof.
  intros H0 H12.
  apply Qle_shift_div_l; [lra|].
  assert (E : (1 / (1 + d2) * (1 + d1) == (1 + d1) / (1 + d2))%Q) by (field; lra).
  rewrite E. apply Qle_shift_div_r; lra.
Qed.

Lemma l2_score_vanishes (eps : Q) :
  (0 < eps)%Q -> forall d, (1 / eps <= d)%Q -> (1 / (1 + d) < eps)%Q.
Proof.
  intros He d Hd.
  assert (Hpos : (0 < 1 / eps)%Q).
  { unfold Qdiv. rewrite Qmult_1_l. apply Qinv_lt_0_compat. exact He. }
  apply Qlt_shift_div_r; [lra|].
  assert (E : (eps * (1 / eps) == 1)%Q) by (field; lra).
  assert (Hm : (eps * (1 / eps) <= eps * d)%Q) by (apply Qmult_le_l; assumption).
  rewrite Qmult_plus_distr_r. lra.
Qed.

(** ** Metric names at collection creation *)

Lemma metric_map_unrecognized (m : string) :
  m ∉ metrics -> Chroma.metric_map !! m = None.
Proof.
  unfold metrics, Chroma.metric_map. intros Hm.
  apply not_elem_of_cons in Hm as [H1 Hm].
  apply not_elem_of_cons in Hm as [H2 Hm].
  apply not_elem_of_cons in Hm as [H3 _].
  rewrite !lookup_insert_ne by congruence. apply lookup_singleton_ne. congruence.
Qed.

Lemma distance_map_unrecognized (m : string) :
  m ∉ metrics -> Qdrant.distance_map !! m = None.
Proof.
  unfold metrics, Qdrant.distance_map. intros Hm.
  apply not_elem_of_cons in Hm as [H1 Hm].
  apply not_elem_of_cons in Hm as [H2 Hm].
  apply not_elem_of_cons in Hm as [H3 _].
  rewrite !lookup_insert_ne by congruence. apply lookup_singleton_ne. congruence.
Qed.

(** What [create_collection] of the embedded adapter leaves in the engine
    for a name that was free. *)
Lemma chroma_create_collection_fresh
    (self : Chroma.ChromaVectorDB) (client : gmap string Chroma.Collection)
    (name : string) (dimension : Z) (distance_metric : string) :
  Chroma._client self = Some client ->
  client !! name = None ->
  Chroma.create_collection self name dimension distance_metric =
    (Ok tt,
     {| Chroma.persist_directory := Chroma.persist_directory self;
        Chroma._client :=
          Some (<[name := {| Chroma.metadata :=
                               {[ "hnsw:space" := AStr (Chroma.mapped_metric distance_metric);
                                  "dimension" := AInt dimension ]};
                             Chroma.records := ∅ |}]> client) |}).
Proof.
  intros Hc Hfree. unfold Chroma.create_collection, Chroma.client_create_collection.
  rewrite Hc, Hfree. reflexivity.
Qed.

(** C2, as the code has it.  A metric string that, lowercased, is outside
    the closed set is not refused: both adapters substitute the cosine
    metric, and the embedded adapter creates the collection with the cosine
    space in its metadata. *)
Theorem unrecognized_metric_defaults_to_cosine (distance_metric : string) :
  Py.lower distance_metric ∉ metrics ->
  Chroma.mapped_metric distance_metric = "cosine"
  /\ Qdrant.distance_metric_val distance_metric = Qdrant.COSINE
  /\ forall self client name dimension,
       Chroma._client self = Some client ->
       client !! name = None ->
       exists self',
         Chroma.create_collection self name dimension distance_metric = (Ok tt, self')
         /\ stored_space self' name = Some (AStr "cosine").
Proof.
  intros Hm.
  assert (E1 : Chroma.mapped_metric distance_metric = "cosine").
  { unfold Chroma.mapped_metric. rewrite (metric_map_unrecognized _ Hm). reflexivity. }
  split; [exact E1|]. split.
  { unfold Qdrant.distance_metric_val. rewrite (distance_map_unrecognized _ Hm). reflexivity. }
  intros self client name dimension Hc Hfree. eexists. split.
  - apply chroma_create_collection_fresh; eassumption.
  - unfold stored_space. simpl. rewrite lookup_insert_eq. simpl.
    rewrite E1. reflexivity.
Qed.

Lemma unrecognized_metric_defaults_to_cosine_witness :
  (Py.lower "Manhattan" ∉ metrics)
  /\ Chroma.mapped_metric "Manhattan" = "cosine"
  /\ Qdrant.distance_metric_val "Manhattan" = Qdrant.COSINE
  /\ exists self',
       Chroma.create_collection chroma_empty "docs" 384 "Manhattan" = (Ok tt, self')
       /\ stored_space self' "docs" = Some (AStr "cosine").
Proof.
  assert (H : Py.lower "Manhattan" ∉ metrics).
  { unfold metrics. rewrite list_elem_of_In. simpl. intuition discriminate. }
  destruct (unrecognized_metric_defaults_to_cosine "Manhattan" H) as (E1 & E2 & Hcreate).
  split; [exact H|]. split; [exact E1|]. split; [exact E2|].
  apply (Hcreate chroma_empty ∅); reflexivity.
Defined.

(** C2, refuted as stated: [create_collection] with the metric "manhattan",
    which is outside the closed set, raises nothing and silently creates a
    cosine collection. *)
Lemma create_collection_unrecognized_metric_accepted :
  ("manhattan" ∉ metrics)
  /\ exists self',
       Chroma.create_collection chroma_empty "docs" 384 "manhattan" = (Ok tt, self')
       /\ stored_space self' "docs" = Some (AStr "cosine").
Proof.
  split.
  - unfold metrics. rewrite list_elem_of_In. simpl. intuition discriminate.
  - eexists. split; [reflexivity|]. vm_compute. reflexivity.
Qed.

(** ** Hybrid fusion *)

Lemma score_of_elem (results : list Hybrid.Hit) (i : string) :
  i ∈ Hybrid.id <$> results -> is_Some (Hybrid.score_of results i).
Proof.
  unfold Hybrid.score_of, Hybrid.find_hit.
  induction results as [|r results IH]; simpl; intros Hin.
  - apply elem_of_nil in Hin. destruct Hin.
  - destruct (String.eqb (Hybrid.id r) i) eqn:E; [simpl; eauto|].
    apply elem_of_cons in Hin as [->|Hin]; [|auto].
    rewrite String.eqb_refl in E. discriminate.
Qed.

Lemma merged_elem (w_v w_k : Q) (vs ks : list Hybrid.Hit) (i : string) :
  i ∈ ((Hybrid.id <$> vs) ++ (Hybrid.id <$> ks))%list ->
  exists r, r ∈ Hybrid.ranked w_v w_k vs ks
            /\ Hybrid.id r = i
            /\ Hybrid.score r = Hybrid.combined w_v w_k vs ks i.
Proof.
  intros Hin.
  exists {| Hybrid.id := i;
            Hybrid.score := Hybrid.combined w_v w_k vs ks i;
            Hybrid.payload := Hybrid.payload_of vs ks i |}.
  split; [|split; reflexivity].
  unfold Hybrid.ranked. rewrite merge_sort_Permutation.
  unfold Hybrid.merged. apply list_elem_of_fmap. eexists. split; [reflexivity|].
  apply elem_of_remove_dups. exact Hin.
Qed.

Lemma Qle_bool_ext (a b c : Q) : (b == c)%Q -> Qle_bool a b = Qle_bool a c.
Proof.
  intros E. destruct (Qle_bool a c) eqn:Hc.
  - apply Qle_bool_iff. rewrite E. apply Qle_bool_iff. exact Hc.
  - destruct (Qle_bool a b) eqn:Hb; [|reflexivity].
    apply Qle_bool_iff in Hb. rewrite E in Hb. apply Qle_bool_iff in Hb. congruence.
Qed.

(** The fused ranking is ordered: descending by score, then ascending by
    id. *)
Lemma before_total : Total (fun a b : Hybrid.Hit => Is_true (Hybrid.before a b)).
Proof.
  intros a b. unfold Hybrid.before.
  rewrite <- (Qcompare_antisym (Hybrid.score a) (Hybrid.score b)).
  destruct (Hybrid.score a ?= Hybrid.score b)%Q; simpl; auto.
  destruct (String.leb_total (Hybrid.id a) (Hybrid.id b)) as [->| ->]; simpl; auto.
Qed.

Lemma ranked_sorted (w_v w_k : Q) (vs ks : list Hybrid.Hit) :
  Sorted (fun a b => Is_true (Hybrid.before a b)) (Hybrid.ranked w_v w_k vs ks).
Proof.
  unfold Hybrid.ranked.
  apply (@Sorted_merge_sort _ (fun a b => Is_true (Hybrid.before a b)) _ before_total).
Qed.

(** The ranking of the example before truncation and floor. *)
Lemma example_ranked :
  Hybrid.ranked Hybrid.default_vector_weight Hybrid.default_keyword_weight
    example_vector_results example_keyword_results
  = [ {| Hybrid.id := "a";
         Hybrid.score := (7 # 10) * (9 # 10) + (3 # 10) * (5 # 10);
         Hybrid.payload := ∅ |};
      {| Hybrid.id := "b";
         Hybrid.score := (7 # 10) * 0 + (3 # 10) * (8 # 10);
         Hybrid.payload := ∅ |} ].
Proof. vm_compute. reflexivity. Qed.

(** C3.  For every id of either input list the fused ranking holds one
    entry whose score is [w_v * vectorScore + w_k * keywordScore], the score
    of a list that does not mention the id counting as exactly zero; the
    default weights are 0.7 and 0.3, and with them the lists of the
    specification's example fuse to [a] with 0.78 followed by [b] with
    0.24, under every limit of at least two entries and every floor of at
    most 0.24. *)
Theorem hybrid_combined_scores :
  (forall (w_v w_k : Q) (vs ks : list Hybrid.Hit) (i : string),
     i ∈ ((Hybrid.id <$> vs) ++ (Hybrid.id <$> ks))%list ->
     exists r, r ∈ Hybrid.ranked w_v w_k vs ks
               /\ Hybrid.id r = i
               /\ match Hybrid.score_of vs i, Hybrid.score_of ks i with
                  | Some sv, Some sk => (Hybrid.score r == w_v * sv + w_k * sk)%Q
                  | Some sv, None => (Hybrid.score r == w_v * sv)%Q
                  | None, Some sk => (Hybrid.score r == w_k * sk)%Q
                  | None, None => False
                  end)
  /\ (Hybrid.default_vector_weight == 0.7)%Q
  /\ (Hybrid.default_keyword_weight == 0.3)%Q
  /\ (forall (limit : nat) (floor : Q),
        (2 <= limit)%nat ->
        (floor <= 0.24)%Q ->
        Hybrid.reads_as
          (Hybrid.hybrid_search Hybrid.default_vector_weight Hybrid.default_keyword_weight
             limit floor example_vector_results example_keyword_results)
          [("a", 0.78%Q); ("b", 0.24%Q)]).
Proof.
  split; [|split; [reflexivity|split; [reflexivity|]]].
  - intros w_v w_k vs ks i Hin.
    destruct (merged_elem w_v w_k vs ks i Hin) as (r & Hr & Hid & Hs).
    exists r. split; [exact Hr|]. split; [exact Hid|].
    rewrite Hs. unfold Hybrid.combined.
    apply elem_of_app in Hin.
    destruct (Hybrid.score_of vs i) as [sv|] eqn:Ev;
      destruct (Hybrid.score_of ks i) as [sk|] eqn:Ek; simpl; try lra.
    destruct Hin as [Hin|Hin]; apply score_of_elem in Hin as [x Hx]; congruence.
  - intros limit floor Hlimit Hfloor. unfold Hybrid.hybrid_search.
    rewrite example_ranked.
    destruct limit as [|[|limit]]; [lia|lia|]. cbn [take List.filter Hybrid.score].
    assert (Ha : Qle_bool floor (78 # 100) = true) by (apply Qle_bool_iff; lra).
    assert (Hb : Qle_bool floor (24 # 100) = true) by (apply Qle_bool_iff; lra).
    rewrite (Qle_bool_ext floor _ (78 # 100)), Ha by reflexivity.
    rewrite (Qle_bool_ext floor _ (24 # 100)), Hb by reflexivity.
    rewrite take_nil. repeat constructor.
Qed.

Lemma hybrid_combined_scores_witness :
  (("b" ∈ ((Hybrid.id <$> example_vector_results)
           ++ (Hybrid.id <$> example_keyword_results))%list)
   /\ exists r, r ∈ Hybrid.ranked 0.7 0.3 example_vector_results example_keyword_results
                /\ Hybrid.id r = "b" /\ (Hybrid.score r == 0.3 * 0.8)%Q)
  /\ ((2 <= 10)%nat /\ (0 <= 0.24)%Q
      /\ Hybrid.reads_as
           (Hybrid.hybrid_search Hybrid.default_vector_weight Hybrid.default_keyword_weight
              10 0 example_vector_results example_keyword_results)
           [("a", 0.78%Q); ("b", 0.24%Q)]).
Proof.
  assert (H : "b" ∈ ((Hybrid.id <$> example_vector_results)
                     ++ (Hybrid.id <$> example_keyword_results))%list).
  { apply list_elem_of_In. simpl. tauto. }
  assert (Hl : (2 <= 10)%nat) by lia.
  assert (Hf : (0 <= 0.24)%Q) by discriminate.
  destruct hybrid_combined_scores as (Hall & _ & _ & Hexample).
  split.
  - split; [exact H|].
    exact (Hall 0.7%Q 0.3%Q example_vector_results example_keyword_results "b" H).
  - split; [exact Hl|]. split; [exact Hf|]. exact (Hexample 10%nat 0%Q Hl Hf).
Defined.

(** ** Validation of the remote configuration *)

Lemma mode_remote (mode : string) :
  mode ∈ ["cloud"; "hybrid"] ->
  bool_decide (mode ∈ ["local"; "cloud"; "hybrid"]) = true
  /\ String.eqb mode "local" = false.
Proof.
  intros Hin. apply elem_of_cons in Hin as [->|Hin];
    [|apply list_elem_of_singleton in Hin as ->]; split; reflexivity.
Qed.

(** C4.  When the effective mode is cloud or hybrid, a URL without an API
    key and an API key without a URL each make the validator, and with it
    the factory, raise [VectorDBConfigurationError] with a message that
    names the setting to supply; no adapter is constructed, whatever host
    and port say. *)
Theorem remote_config_half_set_raises
    (Client : Type) (os : Py.FileSystem) (settings : Settings) (mode : option string) :
  Factory.effective_mode_of settings mode ∈ ["cloud"; "hybrid"] ->
  (Py.truthy_str (qdrant_url settings) = true ->
   Py.truthy_str (qdrant_api_key settings) = false ->
   exists msg,
     Factory._validate_qdrant_config settings = Raise (VectorDBConfigurationError msg)
     /\ @Factory.get_vector_db Client os settings mode = Raise (VectorDBConfigurationError msg)
     /\ msg = "Qdrant URL provided but API key missing. Set DOCVECTOR_QDRANT_API_KEY for cloud deployment."
     /\ Py.contains "DOCVECTOR_QDRANT_API_KEY" msg = true)
  /\ (Py.truthy_str (qdrant_url settings) = false ->
      Py.truthy_str (qdrant_api_key settings) = true ->
      exists msg,
        Factory._validate_qdrant_config settings = Raise (VectorDBConfigurationError msg)
        /\ @Factory.get_vector_db Client os settings mode = Raise (VectorDBConfigurationError msg)
        /\ msg = "Qdrant API key provided but URL missing. Set DOCVECTOR_QDRANT_URL for cloud deployment."
        /\ Py.contains "DOCVECTOR_QDRANT_URL" msg = true).
Proof.
  intros Hmode. destruct (mode_remote _ Hmode) as [Hvalid Hlocal].
  split; intros Hu Hk; eexists;
    (split; [|split; [|split; [reflexivity|reflexivity]]]).
  - unfold Factory._validate_qdrant_config. rewrite Hu, Hk. reflexivity.
  - unfold Factory.get_vector_db, Factory.create. rewrite Hvalid, Hlocal.
    unfold Factory._validate_qdrant_config. rewrite Hu, Hk. reflexivity.
  - unfold Factory._validate_qdrant_config. rewrite Hu, Hk. reflexivity.
  - unfold Factory.get_vector_db, Factory.create. rewrite Hvalid, Hlocal.
    unfold Factory._validate_qdrant_config. rewrite Hu, Hk. reflexivity.
Qed.

Lemma remote_config_half_set_raises_witness :
  ((Factory.effective_mode_of url_only_settings None ∈ ["cloud"; "hybrid"])
   /\ Py.truthy_str (qdrant_url url_only_settings) = true
   /\ Py.truthy_str (qdrant_api_key url_only_settings) = false
   /\ @Factory.get_vector_db unit bare_fs url_only_settings None
       = Raise (VectorDBConfigurationError
                  "Qdrant URL provided but API key missing. Set DOCVECTOR_QDRANT_API_KEY for cloud deployment."))
  /\ ((Factory.effective_mode_of key_only_settings (Some "hybrid") ∈ ["cloud"; "hybrid"])
      /\ Py.truthy_str (qdrant_url key_only_settings) = false
      /\ Py.truthy_str (qdrant_api_key key_only_settings) = true
      /\ @Factory.get_vector_db unit bare_fs key_only_settings (Some "hybrid")
          = Raise (VectorDBConfigurationError
                     "Qdrant API key provided but URL missing. Set DOCVECTOR_QDRANT_URL for cloud deployment.")).
Proof.
  assert (H1 : Factory.effective_mode_of url_only_settings None ∈ ["cloud"; "hybrid"]).
  { apply list_elem_of_In. simpl. tauto. }
  assert (H2 : Factory.effective_mode_of key_only_settings (Some "hybrid")
                 ∈ ["cloud"; "hybrid"]).
  { apply list_elem_of_In. simpl. tauto. }
  split.
  - split; [exact H1|]. split; [reflexivity|]. split; [reflexivity|].
    destruct (remote_config_half_set_raises unit bare_fs url_only_settings None H1)
      as [Hurl _].
    destruct (Hurl eq_refl eq_refl) as (msg & _ & Hget & -> & _). exact Hget.
  - split; [exact H2|]. split; [reflexivity|]. split; [reflexivity|].
    destruct (remote_config_half_set_raises unit bare_fs key_only_settings (Some "hybrid") H2)
      as [_ Hkey].
    destruct (Hkey eq_refl eq_refl) as (msg & _ & Hget & -> & _). exact Hget.
Defined.

(** ** Paths and [os.path.dirname] *)

Lemma upto_last_sep_no_sep (p : string) : Py.has_sep p = false -> Py.upto_last_sep p = "".
Proof. destruct p as [|c p]; [reflexivity|]. simpl. intros ->. reflexivity. Qed.

Lemma str_app_cons (c : ascii) (a b : string) : String c a ++ b = String c (a ++ b).
Proof. reflexivity. Qed.

Lemma str_app_assoc (a b c : string) : (a ++ b) ++ c = a ++ (b ++ c).
Proof.
  induction a as [|x a IH]; [reflexivity|].
  rewrite !str_app_cons, IH. reflexivity.
Qed.

Lemma str_app_nonempty (a n : string) : n <> "" -> a ++ n <> "".
Proof. destruct a; [intros H; exact H|discriminate]. Qed.

Lemma has_sep_app (a b : string) : Py.has_sep (a ++ b) = Py.has_sep a || Py.has_sep b.
Proof.
  induction a as [|x a IH]; [reflexivity|].
  rewrite str_app_cons. cbn [Py.has_sep]. rewrite IH. apply orb_assoc.
Qed.

Lemma all_sep_app (a b : string) : Py.all_sep (a ++ b) = Py.all_sep a && Py.all_sep b.
Proof.
  induction a as [|x a IH]; [reflexivity|].
  rewrite str_app_cons. cbn [Py.all_sep]. rewrite IH. apply andb_assoc.
Qed.

Lemma has_sep_child (q name : string) : Py.has_sep (q ++ "/" ++ name) = true.
Proof.
  rewrite has_sep_app. change ("/" ++ name) with (String "/" name).
  cbn [Py.has_sep]. change (Py.is_sep "/") with true. apply orb_true_r.
Qed.

Lemma upto_last_sep_child (q name : string) :
  Py.has_sep name = false -> Py.upto_last_sep (q ++ "/" ++ name) = q ++ "/".
Proof.
  intros Hname. induction q as [|x q IH].
  - change ("" ++ "/" ++ name) with (String "/" name).
    cbn [Py.upto_last_sep Py.has_sep]. change (Py.is_sep "/") with true.
    cbn [orb]. rewrite (upto_last_sep_no_sep name Hname). reflexivity.
  - change (String x q ++ "/" ++ name) with (String x (q ++ "/" ++ name)).
    change (String x q ++ "/") with (String x (q ++ "/")).
    cbn [Py.upto_last_sep Py.has_sep].
    rewrite has_sep_child, orb_true_r, IH. reflexivity.
Qed.

Lemma rstrip_sep_app_sep (q : string) : Py.rstrip_sep (q ++ "/") = Py.rstrip_sep q.
Proof.
  induction q as [|x q IH]; [reflexivity|].
  rewrite str_app_cons. cbn [Py.rstrip_sep]. rewrite IH. reflexivity.
Qed.

Lemma rstrip_sep_plain (n : string) :
  n <> "" -> Py.has_sep n = false -> Py.rstrip_sep n = n.
Proof.
  induction n as [|x n IH]; [congruence|]. intros _ Hs. cbn [Py.has_sep] in Hs.
  apply orb_false_elim in Hs as [Hx Hn]. cbn [Py.rstrip_sep].
  destruct n as [|y n]; [cbn; rewrite Hx; reflexivity|].
  rewrite IH by (discriminate || exact Hn). reflexivity.
Qed.

Lemma rstrip_sep_app_plain (a n : string) :
  n <> "" -> Py.has_sep n = false -> Py.rstrip_sep (a ++ n) = a ++ n.
Proof.
  intros Hne Hs. induction a as [|x a IH]; [exact (rstrip_sep_plain n Hne Hs)|].
  rewrite str_app_cons. cbn [Py.rstrip_sep]. rewrite IH.
  destruct (a ++ n) eqn:E; [|reflexivity].
  exfalso. exact (str_app_nonempty a n Hne E).
Qed.

Lemma all_sep_app_plain (a n : string) :
  n <> "" -> Py.has_sep n = false -> Py.all_sep (a ++ n) = false.
Proof.
  intros Hne Hs. rewrite all_sep_app.
  destruct n as [|x n]; [congruence|]. cbn [Py.has_sep] in Hs.
  apply orb_false_elim in Hs as [Hx _]. cbn [Py.all_sep]. rewrite Hx.
  apply andb_false_r.
Qed.

(** [os.path.dirname] undoes the addition of a name to a path that ends in
    a name. *)
Lemma dirname_child (a n name : string) :
  n <> "" -> Py.has_sep n = false -> Py.has_sep name = false ->
  Py.dirname ((a ++ n) ++ "/" ++ name) = a ++ n.
Proof.
  intros Hne Hs Hname. unfold Py.dirname.
  rewrite (upto_last_sep_child (a ++ n) name Hname).
  assert (Hall : Py.all_sep ((a ++ n) ++ "/") = false).
  { rewrite all_sep_app, (all_sep_app_plain a n Hne Hs). reflexivity. }
  assert (Ht : Py.truthy_str (Some ((a ++ n) ++ "/")) = true).
  { destruct ((a ++ n) ++ "/") eqn:E; [|reflexivity].
    exfalso. revert E. apply str_app_nonempty. discriminate. }
  rewrite Ht, Hall. cbn [negb andb].
  rewrite rstrip_sep_app_sep. apply rstrip_sep_app_plain; assumption.
Qed.

(** ** Validation of the embedded configuration *)





(** ** The remote adapter *)

Section RemoteAdapter.

Context {Client Filter : Type}.
Variable client_get_collection : Client -> string -> result Qdrant.CollectionInfo.
Variable client_delete :
  Client -> string -> Qdrant.PointsSelector Filter -> result unit * Client.
Variable str_Distance : Qdrant.Distance -> string.
Variable _build_filter : gmap string any -> result Filter.

Abbreviation get_collection_info :=
  (Qdrant.get_collection_info client_get_collection str_Distance).
Abbreviation delete := (Qdrant.delete client_get_collection client_delete _build_filter).
Abbreviation delete_on :=
  (Qdrant.delete_on client_get_collection client_delete _build_filter).

Abbreviation count_of info := (Qdrant.or_0 (Qdrant.points_count info)).

Ltac io_step :=
  unfold Py.io_bind, Py.io_read, Py.io_lift, Py.io_ret in *; cbv beta in *.

Ltac raised := intros [= <- <-]; eauto 6.

(** What [delete] does once its guard has passed, on a live client. *)
Lemma delete_on_ok (c c2 : Client) (collection : string)
    (ids : option (list string)) (filters : option (gmap string any)) (n : Z) :
  delete_on collection ids filters c = (Ok n, c2) ->
  exists pre_info post_info,
    client_get_collection c collection = Ok pre_info
    /\ client_get_collection c2 collection = Ok post_info
    /\ n = Z.max 0 (count_of pre_info - count_of post_info).
Proof.
  unfold Qdrant.delete_on. io_step.
  destruct (client_get_collection c collection) as [pre_info|e] eqn:Hpre; [|discriminate].
  destruct (Py.truthy_list ids).
  - destruct (client_delete c collection _) as [[[]|e] c1]; [|discriminate].
    destruct (Py.truthy_dict filters).
    + destruct (_build_filter _) as [qf|e]; [|discriminate].
      destruct (client_delete c1 collection _) as [[[]|e] c3]; [|discriminate].
      destruct (client_get_collection c3 collection) as [post_info|e] eqn:Hpost;
        [|discriminate].
      intros [= <- <-]. eauto.
    + destruct (client_get_collection c1 collection) as [post_info|e] eqn:Hpost;
        [|discriminate].
      intros [= <- <-]. eauto.
  - destruct (Py.truthy_dict filters).
    + destruct (_build_filter _) as [qf|e]; [|discriminate].
      destruct (client_delete c collection _) as [[[]|e] c3]; [|discriminate].
      destruct (client_get_collection c3 collection) as [post_info|e] eqn:Hpost;
        [|discriminate].
      intros [= <- <-]. eauto.
    + rewrite Hpre. intros [= <- <-]. eauto.
Qed.

Lemma delete_on_raise (c c2 : Client) (collection : string)
    (ids : option (list string)) (filters : option (gmap string any)) (e : exn) :
  delete_on collection ids filters c = (Raise e, c2) ->
  (exists c0, client_get_collection c0 collection = Raise e)
  \/ (exists c0 sel c1, client_delete c0 collection sel = (Raise e, c1))
  \/ (exists f, _build_filter f = Raise e).
Proof.
  unfold Qdrant.delete_on. io_step.
  destruct (client_get_collection c collection) as [pre_info|e0] eqn:Hpre; [|raised].
  destruct (Py.truthy_list ids).
  - destruct (client_delete c collection _) as [[[]|e1] c1] eqn:Hd1; [|raised].
    destruct (Py.truthy_dict filters).
    + destruct (_build_filter _) as [qf|e2] eqn:Hb; [|raised].
      destruct (client_delete c1 collection _) as [[[]|e3] c3] eqn:Hd2; [|raised].
      destruct (client_get_collection c3 collection) as [post|e4] eqn:Hpost;
        [discriminate|raised].
    + destruct (client_get_collection c1 collection) as [post|e4] eqn:Hpost;
        [discriminate|raised].
  - destruct (Py.truthy_dict filters).
    + destruct (_build_filter _) as [qf|e2] eqn:Hb; [|raised].
      destruct (client_delete c collection _) as [[[]|e3] c3] eqn:Hd2; [|raised].
      destruct (client_get_collection c3 collection) as [post|e4] eqn:Hpost;
        [discriminate|raised].
    + rewrite Hpre. discriminate.
Qed.

(** [delete] past its guard. *)
Lemma delete_supplied (self : Qdrant.QdrantVectorDB) (collection : string)
    (ids : option (list string)) (filters : option (gmap string any)) :
  is_Some ids \/ is_Some filters ->
  delete self collection ids filters =
    match Qdrant.self_client self "get_collection" with
    | Raise e => (Raise e, self)
    | Ok c =>
        let '(r, c') := delete_on collection ids filters c in
        (r, Qdrant.with_client self c')
    end.
Proof.
  unfold Qdrant.delete. intros [[x ->]|[x ->]]; [reflexivity|].
  destruct ids; reflexivity.
Qed.

(** C5.  A filter-based delete on a live client, whose calls succeed,
    returns [max(0, count_before - count_after)], the two counts being
    the collection's point counts read from the service before and after
    the deletion; and whatever the arguments, a count that [delete]
    returns is that clamped difference of the counts read in the first
    and in the last state of the service, hence never negative. *)
Theorem delete_count_is_clamped_difference
    (self : Qdrant.QdrantVectorDB) (collection : string) :
  (forall (c c' : Client) (filters : gmap string any) (qdrant_filter : Filter)
          (pre_info post_info : Qdrant.CollectionInfo),
     Qdrant.client self = Some c ->
     Py.truthy_dict (Some filters) = true ->
     _build_filter filters = Ok qdrant_filter ->
     client_get_collection c collection = Ok pre_info ->
     client_delete c collection (Qdrant.FilterSelector qdrant_filter) = (Ok tt, c') ->
     client_get_collection c' collection = Ok post_info ->
     delete self collection None (Some filters) =
       (Ok (Z.max 0 (count_of pre_info - count_of post_info)), Qdrant.with_client self c'))
  /\ (forall (ids : option (list string)) (filters : option (gmap string any))
             (n : Z) (self' : Qdrant.QdrantVectorDB),
        delete self collection ids filters = (Ok n, self') ->
        exists c c' pre_info post_info,
          Qdrant.client self = Some c
          /\ Qdrant.client self' = Some c'
          /\ client_get_collection c collection = Ok pre_info
          /\ client_get_collection c' collection = Ok post_info
          /\ n = Z.max 0 (count_of pre_info - count_of post_info)
          /\ (0 <= n)%Z).
Proof.
  split.
  - intros c c' filters qf pre_info post_info Hc Ht Hb Hpre Hdel Hpost.
    rewrite delete_supplied by (right; eauto).
    unfold Qdrant.self_client. rewrite Hc.
    unfold Qdrant.delete_on. io_step. rewrite Hpre. cbn [Py.truthy_list].
    rewrite Ht. cbn [default from_option id]. rewrite Hb. cbv beta iota.
    rewrite Hdel, Hpost. reflexivity.
  - intros ids filters n self' Hdel.
    assert (Hsup : is_Some ids \/ is_Some filters).
    { destruct ids, filters; eauto. discriminate. }
    rewrite (delete_supplied _ _ _ _ Hsup) in Hdel.
    unfold Qdrant.self_client in Hdel.
    destruct (Qdrant.client self) as [c|] eqn:Hc; [|discriminate].
    destruct (delete_on collection ids filters c) as [r c'] eqn:Hon.
    injection Hdel as -> <-.
    destruct (delete_on_ok _ _ _ _ _ _ Hon) as (pre_info & post_info & Hpre & Hpost & ->).
    exists c, c', pre_info, post_info. repeat split; auto. lia.
Qed.

(** C8.  [delete] with neither ids nor filters raises the argument error
    ([ValueError]) and hands the adapter back as it was, without a call
    to the service.  With ids or filters supplied the guard is passed:
    an exception of [delete] then comes from the unset client or from a
    call of the service, from nowhere else. *)
Theorem delete_requires_ids_or_filters
    (self : Qdrant.QdrantVectorDB) (collection : string) :
  delete self collection None None =
    (Raise (ValueError "Either ids or filters must be provided"), self)
  /\ (forall (ids : option (list string)) (filters : option (gmap string any))
             (e : exn) (self' : Qdrant.QdrantVectorDB),
        is_Some ids \/ is_Some filters ->
        delete self collection ids filters = (Raise e, self') ->
        (Qdrant.client self = None
         /\ e = AttributeError "'NoneType' object has no attribute 'get_collection'"
         /\ self' = self)
        \/ (exists c, client_get_collection c collection = Raise e)
        \/ (exists c sel c', client_delete c collection sel = (Raise e, c'))
        \/ (exists f, _build_filter f = Raise e)).
Proof.
  split; [reflexivity|].
  intros ids filters e self' Hsup Hdel.
  rewrite (delete_supplied _ _ _ _ Hsup) in Hdel.
  unfold Qdrant.self_client in Hdel.
  destruct (Qdrant.client self) as [c|] eqn:Hc.
  - right.
    destruct (delete_on collection ids filters c) as [r c'] eqn:Hon.
    injection Hdel as -> <-.
    exact (delete_on_raise _ _ _ _ _ _ Hon).
  - left. injection Hdel as <- <-. auto.
Qed.

(** C10.  [get_collection_info] of the remote adapter returns [None]
    whenever reading the collection from the service raises, whatever
    the exception: a collection that does not exist and a service that
    cannot be reached give the caller the same answer.  It never
    raises. *)
Theorem get_collection_info_none_on_failure
    (self : Qdrant.QdrantVectorDB) (name : string) :
  (forall (c : Client) (e : exn),
     Qdrant.client self = Some c ->
     client_get_collection c name = Raise e ->
     get_collection_info self name = Ok None)
  /\ (exists info, get_collection_info self name = Ok info).
Proof.
  unfold Qdrant.get_collection_info, Qdrant.self_client. split.
  - intros c e -> Hget. simpl. rewrite Hget. reflexivity.
  - destruct (Qdrant.client self) as [c|]; simpl; [|eauto].
    destruct (client_get_collection c name) as [info|e]; simpl; [|eauto].
    destruct (Qdrant.vectors info); simpl; eauto.
Qed.

(** C6, as the code has it.  Before [initialize] the adapters hold no
    client, and the data operations do not answer with an error of their
    own for that state: on the remote adapter [get_collection_info]
    returns [None], [delete] without ids and filters raises the argument
    error, and [delete] with ids or filters fails on the attribute of the
    client that is [None]; on the embedded adapter [create_collection]
    fails in that same way.  Each leaves the adapter as it was. *)
Theorem data_operations_before_initialize
    (self : Qdrant.QdrantVectorDB) (db : Chroma.ChromaVectorDB) :
  Qdrant.client self = None ->
  Chroma._client db = None ->
  (forall name, get_collection_info self name = Ok None)
  /\ (forall collection,
        delete self collection None None =
          (Raise (ValueError "Either ids or filters must be provided"), self))
  /\ (forall collection ids filters,
        is_Some ids \/ is_Some filters ->
        delete self collection ids filters =
          (Raise (AttributeError "'NoneType' object has no attribute 'get_collection'"),
           self))
  /\ (forall name dimension distance_metric,
        Chroma.create_collection db name dimension distance_metric =
          (Raise (AttributeError "'NoneType' object has no attribute 'create_collection'"),
           db)).
Proof.
  intros Hq Hc. split; [|split; [|split]].
  - intros name. unfold Qdrant.get_collection_info, Qdrant.self_client.
    rewrite Hq. reflexivity.
  - reflexivity.
  - intros collection ids filters Hsup. rewrite (delete_supplied _ _ _ _ Hsup).
    unfold Qdrant.self_client. rewrite Hq. reflexivity.
  - intros name dimension distance_metric. unfold Chroma.create_collection.
    rewrite Hc. reflexivity.
Qed.

End RemoteAdapter.

Lemma delete_count_is_clamped_difference_witness :
  Qdrant.client Mem.connected = Some Mem.docs
  /\ Py.truthy_dict (Some ({[ "source" := AStr "react" ]} : gmap string any)) = true
  /\ Mem.get_collection Mem.docs "docs" = Ok (Mem.info_of 3)
  /\ Mem.get_collection Mem.docs_without_react "docs" = Ok (Mem.info_of 1)
  /\ Qdrant.delete Mem.get_collection Mem.delete Mem._build_filter
       Mem.connected "docs" None (Some {[ "source" := AStr "react" ]})
     = (Ok 2%Z, Qdrant.with_client Mem.connected Mem.docs_without_react).
Proof.
  split; [reflexivity|]. split; [reflexivity|].
  split; [reflexivity|]. split; [reflexivity|].
  destruct (delete_count_is_clamped_difference Mem.get_collection Mem.delete Mem._build_filter
              Mem.connected "docs") as [Hfilter _].
  exact (Hfilter Mem.docs Mem.docs_without_react {[ "source" := AStr "react" ]}
           {[ "source" := AStr "react" ]} (Mem.info_of 3) (Mem.info_of 1)
           eq_refl eq_refl eq_refl eq_refl eq_refl eq_refl).
Defined.

Lemma delete_requires_ids_or_filters_witness :
  (is_Some (Some ["p1"]) \/ is_Some (@None (gmap string any)))
  /\ Qdrant.delete Mem.get_collection Mem.delete Mem._build_filter
       Mem.connected "nope" (Some ["p1"]) None
     = (Raise (Mem.not_found "nope"), Mem.connected)
  /\ ((Qdrant.client Mem.connected = None
       /\ Mem.not_found "nope"
          = AttributeError "'NoneType' object has no attribute 'get_collection'"
       /\ Mem.connected = Mem.connected)
      \/ (exists c, Mem.get_collection c "nope" = Raise (Mem.not_found "nope"))
      \/ (exists c sel c', Mem.delete c "nope" sel = (Raise (Mem.not_found "nope"), c'))
      \/ (exists f, Mem._build_filter f = Raise (Mem.not_found "nope"))).
Proof.
  assert (H : is_Some (Some ["p1"]) \/ is_Some (@None (gmap string any))) by (left; eauto).
  split; [exact H|]. split; [reflexivity|].
  destruct (delete_requires_ids_or_filters Mem.get_collection Mem.delete Mem._build_filter
              Mem.connected "nope") as [_ Hsupplied].
  exact (Hsupplied (Some ["p1"]) None (Mem.not_found "nope") Mem.connected H eq_refl).
Defined.

Lemma get_collection_info_none_on_failure_witness :
  (Qdrant.client Mem.connected = Some Mem.docs
   /\ Mem.get_collection Mem.docs "nope" = Raise (Mem.not_found "nope")
   /\ Qdrant.get_collection_info Mem.get_collection Mem.str_Distance Mem.connected "nope"
      = Ok None)
  /\ (Mem.down_get_collection Mem.docs "docs" = Raise Mem.unreachable
      /\ Qdrant.get_collection_info Mem.down_get_collection Mem.str_Distance
           Mem.connected "docs"
         = Ok None).
Proof.
  split.
  - split; [reflexivity|]. split; [reflexivity|].
    destruct (get_collection_info_none_on_failure Mem.get_collection Mem.str_Distance
                Mem.connected "nope") as [Hnone _].
    exact (Hnone Mem.docs (Mem.not_found "nope") eq_refl eq_refl).
  - split; [reflexivity|].
    destruct (get_collection_info_none_on_failure Mem.down_get_collection Mem.str_Distance
                Mem.connected "docs") as [Hnone _].
    exact (Hnone Mem.docs Mem.unreachable eq_refl eq_refl).
Defined.

Lemma data_operations_before_initialize_witness :
  Qdrant.client Mem.fresh = None
  /\ Chroma._client (Chroma.__init__ Mem.settings None) = None
  /\ Qdrant.get_collection_info Mem.get_collection Mem.str_Distance Mem.fresh "docs" = Ok None
  /\ Qdrant.delete Mem.get_collection Mem.delete Mem._build_filter
       Mem.fresh "docs" (Some ["p1"]) None
     = (Raise (AttributeError "'NoneType' object has no attribute 'get_collection'"),
        Mem.fresh)
  /\ Chroma.create_collection (Chroma.__init__ Mem.settings None) "docs" 384 "cosine"
     = (Raise (AttributeError "'NoneType' object has no attribute 'create_collection'"),
        Chroma.__init__ Mem.settings None).
Proof.
  split; [reflexivity|]. split; [reflexivity|].
  destruct (data_operations_before_initialize Mem.get_collection Mem.delete Mem.str_Distance
              Mem._build_filter Mem.fresh (Chroma.__init__ Mem.settings None)
              eq_refl eq_refl) as (Hinfo & _ & Hdel & Hcreate).
  split; [apply Hinfo|]. split; [apply Hdel; left; eauto|apply Hcreate].
Defined.

(** C6, refuted as stated: on the remote adapter that [__init__] has just
    built, [get_collection_info] does not fail at all; it returns [None]. *)
Lemma get_collection_info_before_initialize_returns :
  Qdrant.client Mem.fresh = None
  /\ Qdrant.get_collection_info Mem.get_collection Mem.str_Distance Mem.fresh "docs" = Ok None.
Proof. split; reflexivity. Qed.

(** ** Schema round trip of the embedded adapter *)





(** * Further properties of the code *)

(** ** The factory and its validators *)

(** Validation of the remote configuration passes in exactly two
    situations: URL and API key are both set, whatever host and port hold;
    or neither is set, the host is set and the port is a positive integer.
    Every failure is a [VectorDBConfigurationError]. *)
Theorem validate_qdrant_config_passes_iff (settings : Settings) :
  (Factory._validate_qdrant_config settings = Ok tt <->
   (Py.truthy_str (qdrant_url settings) = true
    /\ Py.truthy_str (qdrant_api_key settings) = true)
   \/ (Py.truthy_str (qdrant_url settings) = false
       /\ Py.truthy_str (qdrant_api_key settings) = false
       /\ Py.truthy_str (qdrant_host settings) = true
       /\ exists z, qdrant_port settings = AInt z /\ (0 < z)%Z))
  /\ (forall e, Factory._validate_qdrant_config settings = Raise e ->
                exists msg, e = VectorDBConfigurationError msg).
Proof.
  unfold Factory._validate_qdrant_config.
  destruct (Py.truthy_str (qdrant_url settings)) eqn:Hu;
    destruct (Py.truthy_str (qdrant_api_key settings)) eqn:Hk; simpl.
  - split; [split; auto|discriminate].
  - split; [split; [discriminate|intros [[_ ?]|[? _]]; discriminate]|].
    intros e [= <-]. eauto.
  - split; [split; [discriminate|intros [[? _]|(_ & ? & _)]; discriminate]|].
    intros e [= <-]. eauto.
  - destruct (Py.truthy_str (qdrant_host settings)) eqn:Hh; simpl.
    + destruct (qdrant_port settings) as [|s|z] eqn:Hp; simpl.
      * split; [split; [discriminate|]|intros e [= <-]; eauto].
        intros [[? _]|(_ & _ & _ & z & ? & _)]; discriminate.
      * split; [split; [discriminate|]|intros e [= <-]; eauto].
        intros [[? _]|(_ & _ & _ & z & ? & _)]; discriminate.
      * destruct (0 <? z)%Z eqn:Hz; simpl.
        -- split; [|discriminate]. split; [|reflexivity]. intros _. right.
           repeat split; auto. exists z. split; [reflexivity|lia].
        -- split; [split; [discriminate|]|intros e [= <-]; eauto].
           intros [[? _]|(_ & _ & _ & z' & [= <-] & Hpos)]; [discriminate|lia].
    + split; [split; [discriminate|]|intros e [= <-]; eauto].
      intros [[? _]|(_ & _ & ? & _)]; discriminate.
Qed.

Lemma validate_qdrant_config_passes_iff_witness :
  Factory._validate_qdrant_config Mem.settings = Ok tt
  /\ Factory._validate_qdrant_config url_only_settings
     = Raise (VectorDBConfigurationError
                "Qdrant URL provided but API key missing. Set DOCVECTOR_QDRANT_API_KEY for cloud deployment.")
  /\ exists msg,
       VectorDBConfigurationError
         "Qdrant URL provided but API key missing. Set DOCVECTOR_QDRANT_API_KEY for cloud deployment."
       = VectorDBConfigurationError msg.
Proof.
  split.
  - apply (proj1 (validate_qdrant_config_passes_iff Mem.settings)). right.
    repeat split; try reflexivity. exists 6333%Z. split; [reflexivity|lia].
  - split; [reflexivity|].
    apply (proj2 (validate_qdrant_config_passes_iff url_only_settings)). reflexivity.
Defined.

(** The factory raises [ValueError] exactly when the effective mode is
    none of local, cloud and hybrid, and then before it validates
    anything; with a valid mode the only exception it raises is
    [VectorDBConfigurationError]. *)
Theorem get_vector_db_errors
    (Client : Type) (os : Py.FileSystem) (settings : Settings) (mode : option string) :
  let effective_mode := Factory.effective_mode_of settings mode in
  (effective_mode ∉ ["local"; "cloud"; "hybrid"] ->
   @Factory.get_vector_db Client os settings mode
     = Raise (ValueError ("Invalid mode: '" ++ effective_mode ++ "'")))
  /\ (effective_mode ∈ ["local"; "cloud"; "hybrid"] ->
      forall e, @Factory.get_vector_db Client os settings mode = Raise e ->
                exists msg, e = VectorDBConfigurationError msg).
Proof.
  intros effective_mode. unfold Factory.get_vector_db. fold effective_mode. split.
  - intros Hout. rewrite bool_decide_eq_false_2 by exact Hout. reflexivity.
  - intros Hin e. rewrite bool_decide_eq_true_2 by exact Hin. simpl.
    destruct (Factory.create os settings effective_mode) as [db|e0]; simpl; [discriminate|].
    destruct e0; intros [= <-]; eauto.
Qed.

Lemma get_vector_db_errors_witness :
  (Factory.effective_mode_of local_settings (Some "invalid") ∉ ["local"; "cloud"; "hybrid"])
  /\ @Factory.get_vector_db unit readonly_fs local_settings (Some "invalid")
     = Raise (ValueError "Invalid mode: 'invalid'")
  /\ (Factory.effective_mode_of local_settings None ∈ ["local"; "cloud"; "hybrid"])
  /\ exists msg,
       @Factory.get_vector_db unit readonly_fs local_settings None
       = Raise (VectorDBConfigurationError msg).
Proof.
  assert (H1 : Factory.effective_mode_of local_settings (Some "invalid")
                 ∉ ["local"; "cloud"; "hybrid"]).
  { rewrite list_elem_of_In. simpl. intuition discriminate. }
  assert (H2 : Factory.effective_mode_of local_settings None ∈ ["local"; "cloud"; "hybrid"]).
  { apply list_elem_of_In. simpl. tauto. }
  split; [exact H1|].
  split; [exact (proj1 (get_vector_db_errors unit readonly_fs local_settings (Some "invalid")) H1)|].
  split; [exact H2|].
  destruct (proj2 (get_vector_db_errors unit readonly_fs local_settings None) H2
              (VectorDBConfigurationError
                 "ChromaDB persist directory parent '/srv/docvector' is not writable. Check file permissions.")
              eq_refl) as [msg Hmsg].
  exists msg. rewrite <- Hmsg. reflexivity.
Defined.

Lemma or_str_same (x : option string) : Qdrant.or_str x x = x.
Proof. unfold Qdrant.or_str. destruct (Py.truthy_str x); reflexivity. Qed.

Lemma or_int_same (x : any) : Qdrant.or_int x x = x.
Proof.
  destruct x as [|s|z]; simpl; [reflexivity| |].
  - destruct s; reflexivity.
  - destruct (z =? 0)%Z; reflexivity.
Qed.

(** For the cloud and hybrid modes, once validation passes, the factory
    builds the same remote adapter whichever deployment branch it takes:
    every connection field is the settings' value (the cloud adapter
    carries host and port too), and there is no client yet. *)
Theorem factory_remote_adapter
    (Client : Type) (os : Py.FileSystem) (settings : Settings) (mode : option string) :
  Factory.effective_mode_of settings mode ∈ ["cloud"; "hybrid"] ->
  Factory._validate_qdrant_config settings = Ok tt ->
  @Factory.get_vector_db Client os settings mode =
    Ok (Factory.QdrantStore
          {| Qdrant.url := qdrant_url settings;
             Qdrant.api_key := qdrant_api_key settings;
             Qdrant.host := qdrant_host settings;
             Qdrant.port := qdrant_port settings;
             Qdrant.grpc_port := qdrant_grpc_port settings;
             Qdrant.use_grpc := qdrant_use_grpc settings;
             Qdrant.client := None |}).
Proof.
  intros Hmode Hvalid. destruct (mode_remote _ Hmode) as [Hin Hlocal].
  unfold Factory.get_vector_db, Factory.create. rewrite Hin, Hlocal, Hvalid. simpl.
  unfold Qdrant.__init__.
  destruct (Py.truthy_str (qdrant_url settings) && Py.truthy_str (qdrant_api_key settings));
    simpl; rewrite ?or_str_same, ?or_int_same; reflexivity.
Qed.

Lemma factory_remote_adapter_witness :
  (Factory.effective_mode_of Mem.settings None ∈ ["cloud"; "hybrid"])
  /\ Factory._validate_qdrant_config Mem.settings = Ok tt
  /\ @Factory.get_vector_db unit readonly_fs Mem.settings None =
       Ok (Factory.QdrantStore
             {| Qdrant.url := None; Qdrant.api_key := None;
                Qdrant.host := Some "localhost"; Qdrant.port := AInt 6333;
                Qdrant.grpc_port := AInt 6334; Qdrant.use_grpc := false;
                Qdrant.client := None |}).
Proof.
  assert (H : Factory.effective_mode_of Mem.settings None ∈ ["cloud"; "hybrid"]).
  { apply list_elem_of_In. simpl. tauto. }
  split; [exact H|]. split; [reflexivity|].
  exact (factory_remote_adapter unit readonly_fs Mem.settings None H eq_refl).
Defined.

(** Construction is two-phase and follows the mode: an adapter that the
    factory returns is the embedded one exactly for the local mode and the
    remote one for cloud and hybrid, and in either case it holds no client
    before [initialize]. *)
Theorem factory_returns_uninitialized
    (Client : Type) (os : Py.FileSystem) (settings : Settings) (mode : option string)
    (db : @Factory.IVectorStore Client) :
  Factory.get_vector_db os settings mode = Ok db ->
  match db with
  | Factory.ChromaStore c =>
      Factory.effective_mode_of settings mode = "local" /\ Chroma._client c = None
  | Factory.QdrantStore q =>
      Factory.effective_mode_of settings mode ∈ ["cloud"; "hybrid"]
      /\ Qdrant.client q = None
  end.
Proof.
  unfold Factory.get_vector_db, Factory.create.
  set (m := Factory.effective_mode_of settings mode).
  destruct (bool_decide (m ∈ ["local"; "cloud"; "hybrid"])) eqn:Hin; simpl; [|discriminate].
  apply bool_decide_eq_true in Hin.
  destruct (String.eqb m "local") eqn:Hlocal.
  - apply String.eqb_eq in Hlocal.
    destruct (Factory._validate_chroma_config os settings) as [[]|e]; simpl.
    + intros [= <-]. split; [exact Hlocal|reflexivity].
    + destruct e; discriminate.
  - apply String.eqb_neq in Hlocal.
    assert (Hremote : m ∈ ["cloud"; "hybrid"]).
    { apply elem_of_cons in Hin as [Hin|Hin]; [contradiction|exact Hin]. }
    destruct (Factory._validate_qdrant_config settings) as [[]|e]; simpl.
    + destruct (Py.truthy_str (qdrant_url settings) && Py.truthy_str (qdrant_api_key settings));
        simpl; intros [= <-]; split; auto.
    + destruct e; discriminate.
Qed.

Lemma factory_returns_uninitialized_witness :
  @Factory.get_vector_db unit bare_fs local_settings None
    = Ok (Factory.ChromaStore
            {| Chroma.persist_directory := "/srv/docvector/chroma"; Chroma._client := None |})
  /\ Factory.effective_mode_of local_settings None = "local"
  /\ Chroma._client
       {| Chroma.persist_directory := "/srv/docvector/chroma"; Chroma._client := None |}
     = None.
Proof.
  split; [reflexivity|].
  exact (factory_returns_uninitialized unit bare_fs local_settings None _ eq_refl).
Defined.

(** ** Score conversion over every metric string *)

Lemma metric_map_values (k v : string) :
  Chroma.metric_map !! k = Some v -> v ∈ ["cosine"; "l2"; "ip"].
Proof.
  unfold Chroma.metric_map. intros H.
  apply lookup_insert_Some in H as [[_ <-]|[_ H]]; [set_solver|].
  apply lookup_insert_Some in H as [[_ <-]|[_ H]]; [set_solver|].
  apply lookup_singleton_Some in H as [_ <-]. set_solver.
Qed.

Lemma mapped_metric_space (distance_metric : string) :
  Chroma.mapped_metric distance_metric ∈ ["cosine"; "l2"; "ip"].
Proof.
  unfold Chroma.mapped_metric.
  destruct (Chroma.metric_map !! Py.lower distance_metric) as [v|] eqn:E; simpl.
  - exact (metric_map_values _ _ E).
  - set_solver.
Qed.

(** Whatever metric string a collection is created with, recognised or
    not and in any letter case, the space recorded for it is one of cosine,
    l2 and ip, and the conversion of a non-negative distance in that space
    returns a score, never [None], between 0 and 1. *)
Theorem created_space_always_scores (distance_metric : string) (distance : Q) :
  (0 <= distance)%Q ->
  Chroma.mapped_metric distance_metric ∈ ["cosine"; "l2"; "ip"]
  /\ exists s,
       Chroma._distance_to_score distance (Chroma.mapped_metric distance_metric)
         = Ok (Some s)
       /\ (0 <= s <= 1)%Q.
Proof.
  intros Hd. split; [apply mapped_metric_space|].
  pose proof (mapped_metric_space distance_metric) as Hin.
  apply elem_of_cons in Hin as [->|Hin]; [|apply elem_of_cons in Hin as [->|Hin]].
  - eexists. split; [reflexivity|apply py_clamp_range].
  - assert (Hne : ~ (1 + distance == 0)%Q) by lra.
    eexists. split; [|apply (l2_score_range _ Hd)].
    unfold Chroma._distance_to_score. simpl. rewrite (l2_defined _ Hne). reflexivity.
  - apply list_elem_of_singleton in Hin as ->.
    eexists. split; [reflexivity|apply py_clamp_range].
Qed.

Lemma created_space_always_scores_witness :
  (0 <= 3 # 2)%Q
  /\ Chroma.mapped_metric "Chebyshev" ∈ ["cosine"; "l2"; "ip"]
  /\ exists s,
       Chroma._distance_to_score (3 # 2) (Chroma.mapped_metric "Chebyshev") = Ok (Some s)
       /\ (0 <= s <= 1)%Q.
Proof.
  assert (H : (0 <= 3 # 2)%Q) by discriminate.
  split; [exact H|]. exact (created_space_always_scores "Chebyshev" (3 # 2) H).
Defined.

(** [_distance_to_score] has three outcomes.  It returns [None] exactly for
    a metric other than the engine's names cosine, l2 and ip (so also for
    the contract's names euclidean and dot, passed unmapped); it raises
    exactly for l2 at the distance -1, where the quotient divides by zero;
    otherwise it returns a score. *)
Theorem distance_to_score_outcomes (distance : Q) (metric : string) :
  (Chroma._distance_to_score distance metric = Ok None <->
   metric ∉ ["cosine"; "l2"; "ip"])
  /\ ((exists e, Chroma._distance_to_score distance metric = Raise e) <->
      metric = "l2" /\ (1 + distance == 0)%Q).
Proof.
  unfold Chroma._distance_to_score.
  destruct (String.eqb metric "cosine") eqn:Ec.
  { apply String.eqb_eq in Ec as ->. split; split.
    - discriminate.
    - intros H. exfalso. apply H. set_solver.
    - intros [e H]. discriminate.
    - intros [H _]. discriminate. }
  destruct (String.eqb metric "l2") eqn:El.
  { apply String.eqb_eq in El as ->.
    destruct (Qeq_bool (1 + distance) 0) eqn:Ez; split; split.
    - discriminate.
    - intros H. exfalso. apply H. set_solver.
    - intros _. split; [reflexivity|apply Qeq_bool_eq; exact Ez].
    - eauto.
    - discriminate.
    - intros H. exfalso. apply H. set_solver.
    - intros [e H]. discriminate.
    - intros [_ H]. apply Qeq_eq_bool in H. congruence. }
  destruct (String.eqb metric "ip") eqn:Ei.
  { apply String.eqb_eq in Ei as ->. split; split.
    - discriminate.
    - intros H. exfalso. apply H. set_solver.
    - intros [e H]. discriminate.
    - intros [H _]. discriminate. }
  apply String.eqb_neq in Ec, El, Ei. split; split.
  - intros _. rewrite list_elem_of_In. simpl. intuition congruence.
  - reflexivity.
  - intros [e H]. discriminate.
  - intros [H _]. contradiction.
Qed.

Lemma distance_to_score_outcomes_witness :
  ("euclidean" ∉ ["cosine"; "l2"; "ip"])
  /\ Chroma._distance_to_score 1 "euclidean" = Ok None
  /\ ("l2" = "l2" /\ (1 + -1 == 0)%Q)
  /\ exists e, Chroma._distance_to_score (-1) "l2" = Raise e.
Proof.
  assert (H1 : "euclidean" ∉ ["cosine"; "l2"; "ip"]).
  { rewrite list_elem_of_In. simpl. intuition discriminate. }
  assert (H2 : "l2" = "l2" /\ (1 + -1 == 0)%Q) by (split; reflexivity).
  split; [exact H1|].
  split; [exact (proj2 (proj1 (distance_to_score_outcomes 1 "euclidean")) H1)|].
  split; [exact H2|].
  exact (proj2 (proj2 (distance_to_score_outcomes (-1) "l2")) H2).
Defined.

(** In each of the three spaces the score is antitone in the distance: of
    two non-negative distances the larger never scores higher. *)
Theorem score_antitone (metric : string) (d1 d2 : Q) :
  metric ∈ ["cosine"; "l2"; "ip"] ->
  (0 <= d1)%Q ->
  (d1 <= d2)%Q ->
  exists s1 s2,
    Chroma._distance_to_score d1 metric = Ok (Some s1)
    /\ Chroma._distance_to_score d2 metric = Ok (Some s2)
    /\ (s2 <= s1)%Q.
Proof.
  intros Hin H0 H12.
  apply elem_of_cons in Hin as [->|Hin]; [|apply elem_of_cons in Hin as [->|Hin]].
  - apply cosine_score_antitone. exact H12.
  - assert (Hn1 : ~ (1 + d1 == 0)%Q) by lra.
    assert (Hn2 : ~ (1 + d2 == 0)%Q) by lra.
    do 2 eexists. unfold Chroma._distance_to_score. simpl.
    rewrite (l2_defined _ Hn1), (l2_defined _ Hn2).
    split; [reflexivity|]. split; [reflexivity|].
    apply l2_score_antitone; assumption.
  - apply list_elem_of_singleton in Hin as ->.
    do 2 eexists. split; [reflexivity|]. split; [reflexivity|].
    apply py_clamp_monotone. lra.
Qed.

Lemma score_antitone_witness :
  ("l2" ∈ ["cosine"; "l2"; "ip"]) /\ (0 <= 1)%Q /\ (1 <= 3)%Q
  /\ exists s1 s2,
       Chroma._distance_to_score 1 "l2" = Ok (Some s1)
       /\ Chroma._distance_to_score 3 "l2" = Ok (Some s2)
       /\ (s2 <= s1)%Q.
Proof.
  assert (H : "l2" ∈ ["cosine"; "l2"; "ip"]) by (apply list_elem_of_In; simpl; tauto).
  assert (H0 : (0 <= 1)%Q) by discriminate.
  assert (H1 : (1 <= 3)%Q) by discriminate.
  split; [exact H|]. split; [exact H0|]. split; [exact H1|].
  exact (score_antitone "l2" 1 3 H H0 H1).
Defined.



(** ** More of the remote adapter *)

Section RemoteAdapterCalls.

Context {Client Filter : Type}.
Variable client_get_collection : Client -> string -> result Qdrant.CollectionInfo.
Variable client_delete :
  Client -> string -> Qdrant.PointsSelector Filter -> result unit * Client.
Variable str_Distance : Qdrant.Distance -> string.
Variable _build_filter : gmap string any -> result Filter.

Abbreviation get_info := (Qdrant.get_collection_info client_get_collection str_Distance).
Abbreviation delete_ := (Qdrant.delete client_get_collection client_delete _build_filter).

Ltac io_unfold :=
  unfold Py.io_bind, Py.io_read, Py.io_lift, Py.io_ret in *; cbv beta in *.

Lemma with_client_same (self : @Qdrant.QdrantVectorDB Client) (c : Client) :
  Qdrant.client self = Some c -> Qdrant.with_client self c = self.
Proof. destruct self. simpl. intros ->. reflexivity. Qed.

(** [get_collection_info] returns an info dictionary exactly when the
    adapter holds a client and the service describes the collection with a
    single [VectorParams]; the dictionary then carries the requested name,
    the size as dimension, the point count as the service gave it ([None]
    included) and the mapped-back distance.  A collection configured with
    named vectors exists and is still answered with [None]. *)
Theorem get_collection_info_some_iff
    (self : Qdrant.QdrantVectorDB) (name : string) :
  (forall info,
     get_info self name = Ok (Some info) <->
     exists c ci params,
       Qdrant.client self = Some c
       /\ client_get_collection c name = Ok ci
       /\ Qdrant.vectors ci = Qdrant.Single params
       /\ info = {[ "name" := AStr name;
                    "dimension" := AInt (Qdrant.size params);
                    "vector_count" := from_option AInt ANone (Qdrant.points_count ci);
                    "distance_metric" :=
                      AStr (Qdrant.map_back
                              (Py.lower (str_Distance (Qdrant.distance params)))) ]})
  /\ (forall c ci named,
        Qdrant.client self = Some c ->
        client_get_collection c name = Ok ci ->
        Qdrant.vectors ci = Qdrant.Named named ->
        get_info self name = Ok None).
Proof.
  unfold Qdrant.get_collection_info, Qdrant.self_client. split.
  - intros info. split.
    + destruct (Qdrant.client self) as [c|]; simpl; [|discriminate].
      destruct (client_get_collection c name) as [ci|e] eqn:Hget; simpl; [|discriminate].
      destruct (Qdrant.vectors ci) as [params| |] eqn:Hv; simpl; try discriminate.
      intros [= <-]. exists c, ci, params. auto.
    + intros (c & ci & params & -> & Hget & Hv & ->). simpl.
      rewrite Hget. simpl. rewrite Hv. reflexivity.
  - intros c ci named -> Hget Hv. simpl. rewrite Hget. simpl. rewrite Hv. reflexivity.
Qed.

(** The metric round trip of the remote adapter.  A collection created
    with a metric string is described back with the contract's name when
    that name is cosine or euclidean, or when the string was not
    recognised (cosine again), as soon as the rendering of the enumeration
    contains the engine's name.  For dot the code maps nothing back: the
    info carries the lowercased rendering of [Distance.DOT] itself. *)
Theorem remote_metric_round_trip
    (self : Qdrant.QdrantVectorDB) (c : Client) (name distance_metric : string)
    (dimension : Z) (count : option Z) :
  Qdrant.client self = Some c ->
  client_get_collection c name = Ok (created_info dimension distance_metric count) ->
  exists info,
    get_info self name = Ok (Some info)
    /\ info !! "dimension" = Some (AInt dimension)
    /\ (Py.lower distance_metric ≠ "euclidean" ->
        Py.lower distance_metric ≠ "dot" ->
        Py.contains "cosine" (Py.lower (str_Distance Qdrant.COSINE)) = true ->
        info !! "distance_metric" = Some (AStr "cosine"))
    /\ (Py.lower distance_metric = "euclidean" ->
        Py.contains "cosine" (Py.lower (str_Distance Qdrant.EUCLID)) = false ->
        Py.contains "euclid" (Py.lower (str_Distance Qdrant.EUCLID)) = true ->
        info !! "distance_metric" = Some (AStr "euclidean"))
    /\ (Py.lower distance_metric = "dot" ->
        Py.contains "cosine" (Py.lower (str_Distance Qdrant.DOT)) = false ->
        Py.contains "euclid" (Py.lower (str_Distance Qdrant.DOT)) = false ->
        info !! "distance_metric" = Some (AStr (Py.lower (str_Distance Qdrant.DOT)))).
Proof.
  intros Hc Hget.
  unfold Qdrant.get_collection_info, Qdrant.self_client. rewrite Hc. simpl.
  rewrite Hget. simpl. eexists. split; [reflexivity|].
  split; [reflexivity|].
  unfold Qdrant.distance_metric_val, Qdrant.map_back.
  split; [|split].
  - intros Hne Hnd Hcos.
    assert (E : default Qdrant.COSINE (Qdrant.distance_map !! Py.lower distance_metric)
                = Qdrant.COSINE).
    { unfold Qdrant.distance_map.
      destruct (decide (Py.lower distance_metric = "cosine")) as [->|Hnc]; [reflexivity|].
      rewrite !lookup_insert_ne by congruence.
      rewrite lookup_singleton_ne by congruence. reflexivity. }
    rewrite E, Hcos. reflexivity.
  - intros -> Hcos Heu. change (default Qdrant.COSINE (Qdrant.distance_map !! "euclidean"))
      with Qdrant.EUCLID. rewrite Hcos, Heu. reflexivity.
  - intros -> Hcos Heu. change (default Qdrant.COSINE (Qdrant.distance_map !! "dot"))
      with Qdrant.DOT. rewrite Hcos, Heu. reflexivity.
Qed.

End RemoteAdapterCalls.

Lemma get_collection_info_some_iff_witness :
  (exists c ci params,
     Qdrant.client Mem.connected = Some c
     /\ Mem.get_collection c "docs" = Ok ci
     /\ Qdrant.vectors ci = Qdrant.Single params
     /\ ({[ "name" := AStr "docs"; "dimension" := AInt 3; "vector_count" := AInt 3;
            "distance_metric" := AStr "cosine" ]} : gmap string any)
        = {[ "name" := AStr "docs";
             "dimension" := AInt (Qdrant.size params);
             "vector_count" := from_option AInt ANone (Qdrant.points_count ci);
             "distance_metric" :=
               AStr (Qdrant.map_back
                       (Py.lower (Mem.str_Distance (Qdrant.distance params)))) ]})
  /\ Qdrant.get_collection_info Mem.get_collection Mem.str_Distance Mem.connected "docs"
     = Ok (Some {[ "name" := AStr "docs"; "dimension" := AInt 3; "vector_count" := AInt 3;
                   "distance_metric" := AStr "cosine" ]})
  /\ Qdrant.get_collection_info named_get_collection Mem.str_Distance Mem.connected "docs"
     = Ok None.
Proof.
  assert (H : exists c ci params,
     Qdrant.client Mem.connected = Some c
     /\ Mem.get_collection c "docs" = Ok ci
     /\ Qdrant.vectors ci = Qdrant.Single params
     /\ ({[ "name" := AStr "docs"; "dimension" := AInt 3; "vector_count" := AInt 3;
            "distance_metric" := AStr "cosine" ]} : gmap string any)
        = {[ "name" := AStr "docs";
             "dimension" := AInt (Qdrant.size params);
             "vector_count" := from_option AInt ANone (Qdrant.points_count ci);
             "distance_metric" :=
               AStr (Qdrant.map_back
                       (Py.lower (Mem.str_Distance (Qdrant.distance params)))) ]}).
  { exists Mem.docs, (Mem.info_of 3),
      {| Qdrant.size := 3; Qdrant.distance := Qdrant.COSINE |}.
    repeat split; reflexivity. }
  split; [exact H|]. split.
  - exact (proj2 (proj1 (get_collection_info_some_iff Mem.get_collection Mem.str_Distance
                           Mem.connected "docs") _) H).
  - exact (proj2 (get_collection_info_some_iff named_get_collection Mem.str_Distance
                    Mem.connected "docs") Mem.docs _ _ eq_refl eq_refl eq_refl).
Defined.

Lemma remote_metric_round_trip_witness :
  Qdrant.client Mem.connected = Some Mem.docs
  /\ dot_get_collection Mem.docs "docs" = Ok (created_info 384 "DOT" (Some 0%Z))
  /\ Py.lower "DOT" = "dot"
  /\ Py.contains "cosine" (Py.lower (enum_str Qdrant.DOT)) = false
  /\ Py.contains "euclid" (Py.lower (enum_str Qdrant.DOT)) = false
  /\ exists info,
       Qdrant.get_collection_info dot_get_collection enum_str Mem.connected "docs"
         = Ok (Some info)
       /\ info !! "distance_metric" = Some (AStr "distance.dot").
Proof.
  split; [reflexivity|]. split; [reflexivity|]. split; [reflexivity|].
  split; [reflexivity|]. split; [reflexivity|].
  destruct (remote_metric_round_trip dot_get_collection enum_str Mem.connected Mem.docs
              "docs" "DOT" 384 (Some 0%Z) eq_refl eq_refl)
    as (info & Hinfo & _ & _ & _ & Hdot).
  exists info. split; [exact Hinfo|]. exact (Hdot eq_refl eq_refl eq_refl).
Defined.

Section RemoteDelete.

Context {Client Filter : Type}.
Variable client_get_collection : Client -> string -> result Qdrant.CollectionInfo.
Variable client_delete :
  Client -> string -> Qdrant.PointsSelector Filter -> result unit * Client.
Variable _build_filter : gmap string any -> result Filter.

Abbreviation remote_delete :=
  (Qdrant.delete client_get_collection client_delete _build_filter).

Ltac run_delete Hsup Hc :=
  rewrite (delete_supplied _ _ _ _ _ _ _ Hsup); unfold Qdrant.self_client; rewrite Hc;
  unfold Qdrant.delete_on, Py.io_bind, Py.io_read, Py.io_lift, Py.io_ret; cbv beta.

(** A [delete] whose ids are an empty list and whose filters are an empty
    dictionary (or absent, as long as one of the two is supplied) passes
    the guard and calls neither a deletion nor the filter translation.  It
    still reads the point count of the collection, before and after: when
    the service describes the collection the result is 0, and when it does
    not, as for a collection that does not exist, the exception of the
    service leaves [delete].  Either way the adapter is as it was. *)
Theorem delete_with_empty_arguments
    (self : Qdrant.QdrantVectorDB) (c : Client) (collection : string)
    (ids : option (list string)) (filters : option (gmap string any)) :
  is_Some ids \/ is_Some filters ->
  Py.truthy_list ids = false ->
  Py.truthy_dict filters = false ->
  Qdrant.client self = Some c ->
  remote_delete self collection ids filters =
    (match client_get_collection c collection with
     | Ok _ => Ok 0%Z
     | Raise e => Raise e
     end, self).
Proof.
  intros Hsup Hids Hfilters Hc. run_delete Hsup Hc.
  destruct (client_get_collection c collection) as [info|e] eqn:Hget.
  - rewrite Hids, Hfilters, Hget. rewrite (with_client_same _ _ Hc).
    f_equal. f_equal. lia.
  - rewrite (with_client_same _ _ Hc). reflexivity.
Qed.

(** When ids and filters are both supplied, the ids are deleted first and
    the filter is applied to the state that leaves; the count returned is
    the clamped difference of the point counts around both deletions, so a
    point that both select is counted once. *)
Theorem delete_ids_then_filter
    (self : Qdrant.QdrantVectorDB) (c c1 c2 : Client) (collection : string)
    (ids : list string) (filters : gmap string any) (qdrant_filter : Filter)
    (pre_info post_info : Qdrant.CollectionInfo) :
  Qdrant.client self = Some c ->
  Py.truthy_list (Some ids) = true ->
  Py.truthy_dict (Some filters) = true ->
  client_get_collection c collection = Ok pre_info ->
  client_delete c collection (Qdrant.PointIdsList ids) = (Ok tt, c1) ->
  _build_filter filters = Ok qdrant_filter ->
  client_delete c1 collection (Qdrant.FilterSelector qdrant_filter) = (Ok tt, c2) ->
  client_get_collection c2 collection = Ok post_info ->
  remote_delete self collection (Some ids) (Some filters) =
    (Ok (Z.max 0 (Qdrant.or_0 (Qdrant.points_count pre_info)
                  - Qdrant.or_0 (Qdrant.points_count post_info))),
     Qdrant.with_client self c2).
Proof.
  intros Hc Hids Hfilters Hpre Hd1 Hb Hd2 Hpost.
  assert (Hsup : is_Some (Some ids) \/ is_Some (Some filters)) by (left; eauto).
  run_delete Hsup Hc.
  rewrite Hpre, Hids. cbn [default from_option id]. rewrite Hd1, Hfilters.
  cbn [default from_option id]. rewrite Hb. cbv beta iota. rewrite Hd2, Hpost. reflexivity.
Qed.

(** [delete] is not atomic: when the deletion by ids has succeeded and the
    translation of the filter then raises, the exception leaves [delete]
    and the adapter stays on the state in which the ids are deleted. *)
Theorem delete_not_atomic
    (self : Qdrant.QdrantVectorDB) (c c1 : Client) (collection : string)
    (ids : list string) (filters : gmap string any) (e : exn)
    (pre_info : Qdrant.CollectionInfo) :
  Qdrant.client self = Some c ->
  Py.truthy_list (Some ids) = true ->
  Py.truthy_dict (Some filters) = true ->
  client_get_collection c collection = Ok pre_info ->
  client_delete c collection (Qdrant.PointIdsList ids) = (Ok tt, c1) ->
  _build_filter filters = Raise e ->
  remote_delete self collection (Some ids) (Some filters) =
    (Raise e, Qdrant.with_client self c1).
Proof.
  intros Hc Hids Hfilters Hpre Hd1 Hb.
  assert (Hsup : is_Some (Some ids) \/ is_Some (Some filters)) by (left; eauto).
  run_delete Hsup Hc.
  rewrite Hpre, Hids. cbn [default from_option id]. rewrite Hd1, Hfilters.
  cbn [default from_option id]. rewrite Hb. reflexivity.
Qed.

End RemoteDelete.

(** ** The database engine *)

Lemma prefix_contains (needle haystack : string) :
  String.prefix needle haystack = true -> Py.contains needle haystack = true.
Proof. intros H. destruct haystack; cbn [Py.contains]; rewrite H; reflexivity. Qed.

Lemma upto_last_sep_nonempty (p : string) :
  Py.has_sep p = true -> Py.upto_last_sep p <> "".
Proof. destruct p as [|c p]; [discriminate|]. simpl. intros ->. discriminate. Qed.

Lemma rstrip_sep_empty (p : string) : Py.rstrip_sep p = "" -> Py.all_sep p = true.
Proof.
  induction p as [|c p IH]; [reflexivity|]. simpl.
  destruct (Py.rstrip_sep p) eqn:E; [|discriminate].
  destruct (Py.is_sep c); [intros _; simpl; apply IH; reflexivity|discriminate].
Qed.

(** [os.path.dirname] is empty exactly for a path without separator. *)
Lemma dirname_empty_iff (p : string) : Py.dirname p = "" <-> Py.has_sep p = false.
Proof.
  unfold Py.dirname. split.
  - destruct (Py.has_sep p) eqn:Hs; [|reflexivity]. intros H. exfalso.
    pose proof (upto_last_sep_nonempty p Hs) as Hne.
    destruct (Py.upto_last_sep p) as [|c h] eqn:Eh; [congruence|].
    cbn [Py.truthy_str andb] in H.
    destruct (Py.all_sep (String c h)) eqn:Ea; cbn [negb] in H; [discriminate|].
    apply rstrip_sep_empty in H. congruence.
  - intros Hs. rewrite (upto_last_sep_no_sep p Hs). reflexivity.
Qed.

Section Engine.

Context {FS AsyncEngine Err : Type}.
Variable makedirs : FS -> string -> Eff.outcome Err unit * FS.
Variable create_async_engine : Db.EngineArgs -> Eff.outcome Err AsyncEngine.

Abbreviation get_engine := (Db.get_engine makedirs create_async_engine).

(** The engine is created once: after a call that returned an engine,
    every later call returns that engine and changes nothing, whatever the
    settings have become. *)
Theorem get_engine_is_cached
    (settings settings' : Db.DatabaseSettings) (w w1 : Db.World) (engine : AsyncEngine) :
  get_engine settings w = (Eff.Done engine, w1) ->
  get_engine settings' w1 = (Eff.Done engine, w1).
Proof.
  unfold Db.get_engine.
  destruct (Db._engine w) as [eng|] eqn:Hw.
  - intros [= <- <-]. rewrite Hw. reflexivity.
  - destruct (Db.create_sqlite_directory makedirs settings (Db.fs w)) as [[[]|e] files];
      [|discriminate].
    destruct (create_async_engine (Db.engine_args settings)) as [eng|e]; [|discriminate].
    intros [= <- <-]. reflexivity.
Qed.

(** The two tests for SQLite differ.  A URL that starts with "sqlite"
    always gets SQLite's engine arguments; a URL that only contains
    "sqlite" further on gets them too, no pool and [check_same_thread],
    while no directory is made for it; every other URL gets the pooled
    arguments and no directory. *)
Theorem sqlite_detection (settings : Db.DatabaseSettings) (files : FS) :
  let sqlite_args :=
    {| Db.url := Db.database_url settings;
       Db.echo := String.eqb (Db.environment settings) "development";
       Db.connect_args := Some {[ "check_same_thread" := false ]};
       Db.pool_pre_ping := None; Db.pool_size := None; Db.max_overflow := None |} in
  (String.prefix "sqlite" (Db.database_url settings) = true ->
   Db.engine_args settings = sqlite_args)
  /\ (String.prefix "sqlite" (Db.database_url settings) = false ->
      Db.create_sqlite_directory makedirs settings files = (Eff.Done tt, files)
      /\ (Py.contains "sqlite" (Db.database_url settings) = true ->
          Db.engine_args settings = sqlite_args)
      /\ (Py.contains "sqlite" (Db.database_url settings) = false ->
          Db.pool_size (Db.engine_args settings) = Some 10%Z
          /\ Db.max_overflow (Db.engine_args settings) = Some 20%Z
          /\ Db.pool_pre_ping (Db.engine_args settings) = Some true
          /\ Db.connect_args (Db.engine_args settings) = None)).
Proof.
  intros sqlite_args. unfold Db.engine_args, Db.create_sqlite_directory. split.
  - intros Hp. rewrite (prefix_contains _ _ Hp). reflexivity.
  - intros Hp. rewrite Hp. split; [reflexivity|]. split.
    + intros ->. reflexivity.
    + intros ->. repeat split.
Qed.

(** For a URL that starts with "sqlite", a first call makes the directory
    of the path that follows the last "///" exactly when that path has a
    separator.  When making it raises, the exception leaves [get_engine]
    and no engine is kept, so that the next call starts over. *)
Theorem get_engine_directory
    (settings : Db.DatabaseSettings) (w : Db.World) :
  let db_path := Eff.split_last "///" (Db.database_url settings) in
  Db._engine w = None ->
  String.prefix "sqlite" (Db.database_url settings) = true ->
  (Py.has_sep db_path = false ->
   Db.create_sqlite_directory makedirs settings (Db.fs w) = (Eff.Done tt, Db.fs w))
  /\ (Py.has_sep db_path = true ->
      Db.create_sqlite_directory makedirs settings (Db.fs w)
        = makedirs (Db.fs w) (Py.dirname db_path)
      /\ forall e files,
           makedirs (Db.fs w) (Py.dirname db_path) = (Eff.Failed e, files) ->
           get_engine settings w
             = (Eff.Failed e, {| Db.fs := files; Db._engine := None |})).
Proof.
  intros db_path Hw Hp. unfold Db.create_sqlite_directory. rewrite Hp. fold db_path. split.
  - intros Hs. rewrite (proj2 (dirname_empty_iff db_path) Hs). reflexivity.
  - intros Hs.
    assert (Ht : Py.truthy_str (Some (Py.dirname db_path)) = true).
    { destruct (Py.dirname db_path) eqn:E; [|reflexivity].
      apply dirname_empty_iff in E. congruence. }
    rewrite Ht. split; [reflexivity|].
    intros e files Hmk. unfold Db.get_engine, Db.create_sqlite_directory.
    rewrite Hw, Hp. fold db_path. rewrite Ht, Hmk. reflexivity.
Qed.

End Engine.

Lemma get_engine_is_cached_witness :
  Db.get_engine MemFs.makedirs MemFs.create_async_engine MemFs.sqlite_settings
    {| Db.fs := MemFs.project; Db._engine := None |}
  = (Eff.Done (Db.engine_args MemFs.sqlite_settings),
     {| Db.fs := (MemFs.makedirs MemFs.project "./data/sqlite").2;
        Db._engine := Some (Db.engine_args MemFs.sqlite_settings) |})
  /\ Db.get_engine MemFs.makedirs MemFs.create_async_engine MemFs.postgres_settings
       {| Db.fs := (MemFs.makedirs MemFs.project "./data/sqlite").2;
          Db._engine := Some (Db.engine_args MemFs.sqlite_settings) |}
     = (Eff.Done (Db.engine_args MemFs.sqlite_settings),
        {| Db.fs := (MemFs.makedirs MemFs.project "./data/sqlite").2;
           Db._engine := Some (Db.engine_args MemFs.sqlite_settings) |}).
Proof.
  assert (H : Db.get_engine MemFs.makedirs MemFs.create_async_engine MemFs.sqlite_settings
                {| Db.fs := MemFs.project; Db._engine := None |}
              = (Eff.Done (Db.engine_args MemFs.sqlite_settings),
                 {| Db.fs := (MemFs.makedirs MemFs.project "./data/sqlite").2;
                    Db._engine := Some (Db.engine_args MemFs.sqlite_settings) |}))
    by reflexivity.
  split; [exact H|].
  exact (get_engine_is_cached MemFs.makedirs MemFs.create_async_engine
           MemFs.sqlite_settings MemFs.postgres_settings _ _ _ H).
Defined.

Lemma sqlite_detection_witness :
  String.prefix "sqlite" (Db.database_url MemFs.postgres_settings) = false
  /\ Py.contains "sqlite" (Db.database_url MemFs.postgres_settings) = true
  /\ Db.create_sqlite_directory MemFs.makedirs MemFs.postgres_settings MemFs.project
     = (Eff.Done tt, MemFs.project)
  /\ Db.engine_args MemFs.postgres_settings
     = {| Db.url := "postgresql+asyncpg://docs@db.internal/sqlite_mirror";
          Db.echo := false;
          Db.connect_args := Some {[ "check_same_thread" := false ]};
          Db.pool_pre_ping := None; Db.pool_size := None; Db.max_overflow := None |}.
Proof.
  split; [reflexivity|]. split; [reflexivity|].
  destruct (sqlite_detection MemFs.makedirs MemFs.postgres_settings MemFs.project)
    as [_ Hother].
  destruct (Hother eq_refl) as (Hdir & Hargs & _).
  split; [exact Hdir|exact (Hargs eq_refl)].
Defined.

Lemma get_engine_directory_witness :
  (Py.has_sep (Eff.split_last "///" (Db.database_url MemFs.memory_settings)) = false
   /\ Db.create_sqlite_directory MemFs.makedirs MemFs.memory_settings MemFs.project
      = (Eff.Done tt, MemFs.project))
  /\ (Py.has_sep (Eff.split_last "///" (Db.database_url MemFs.sqlite_settings)) = true
      /\ MemFs.makedirs MemFs.blocked "./data/sqlite"
         = (Eff.Failed "[Errno 17] File exists: './data/sqlite'", MemFs.blocked)
      /\ Db.get_engine MemFs.makedirs MemFs.create_async_engine MemFs.sqlite_settings
           {| Db.fs := MemFs.blocked; Db._engine := None |}
         = (Eff.Failed "[Errno 17] File exists: './data/sqlite'",
            {| Db.fs := MemFs.blocked; Db._engine := None |})).
Proof.
  split.
  - split; [reflexivity|].
    exact (proj1 (get_engine_directory MemFs.makedirs MemFs.create_async_engine
                    MemFs.memory_settings {| Db.fs := MemFs.project; Db._engine := None |}
                    eq_refl eq_refl) eq_refl).
  - split; [reflexivity|]. split; [reflexivity|].
    destruct (proj2 (get_engine_directory MemFs.makedirs MemFs.create_async_engine
                       MemFs.sqlite_settings
                       {| Db.fs := MemFs.blocked; Db._engine := None |}
                       eq_refl eq_refl) eq_refl) as [_ Hfail].
    exact (Hfail _ _ eq_refl).
Defined.

(** ** The [init] command *)

Lemma replace_same (c : ascii) (s : string) : Eff.replace c c s = s.
Proof.
  induction s as [|a s IH]; [reflexivity|]. simpl. rewrite IH.
  destruct (Ascii.eqb_spec a c) as [->|]; reflexivity.
Qed.

(** Off Windows the POSIX form of a path is the path. *)
Lemma as_posix_posix (path : Cli.Path) : Cli.as_posix false path = Cli.str_path false path.
Proof. apply replace_same. Qed.

Section InitCommand.

Context {FS Err : Type}.
Variable nt : bool.
Variable resolve : string -> Cli.Path.
Variable mkdir : FS -> Cli.Path -> bool -> Eff.outcome Err unit * FS.
Variable path_exists : FS -> string -> bool.
Variable write_text : FS -> string -> string -> Eff.outcome Err unit * FS.
Variable str_err : Err -> string.

Abbreviation run_init := (Cli.init nt resolve mkdir path_exists write_text str_err).

Ltac init_unfold :=
  unfold Cli.init, Cli.init_body, Cli.init_local, Cli.bind, Cli.on_fs, Cli.print, Cli.ret;
  cbn [Cli.fs Cli.console].

(** In every mode but "local", whatever the string, [init] makes the data
    directory and nothing else: no subdirectory, no ".env".  The command
    ends with code 0 exactly when that one [mkdir] succeeded. *)
Theorem init_other_modes (mode data_dir : string) (w : Cli.World) :
  mode <> "local" ->
  Cli.fs (run_init mode data_dir w).2 = (mkdir (Cli.fs w) (resolve data_dir) true).2
  /\ ((run_init mode data_dir w).1 = 0%Z <->
      exists files, mkdir (Cli.fs w) (resolve data_dir) true = (Eff.Done tt, files)).
Proof.
  intros Hmode. apply String.eqb_neq in Hmode. init_unfold. rewrite Hmode.
  destruct (mkdir (Cli.fs w) (resolve data_dir) true) as [[[]|e] files]; simpl.
  - split; [reflexivity|]. split; eauto.
  - split; [reflexivity|]. split; [discriminate|]. intros [f [=]].
Qed.

(** In local mode a ".env" that exists is left alone: once the three
    directories are made, [init] writes nothing, reports that it skips the
    file and ends with code 0. *)
Theorem init_keeps_existing_env (data_dir : string) (w : Cli.World) (f1 f2 f3 : FS) :
  let data_path := resolve data_dir in
  mkdir (Cli.fs w) data_path true = (Eff.Done tt, f1) ->
  mkdir f1 (Cli.truediv data_path "sqlite") false = (Eff.Done tt, f2) ->
  mkdir f2 (Cli.truediv data_path "chroma") false = (Eff.Done tt, f3) ->
  path_exists f3 ".env" = true ->
  (run_init "local" data_dir w).1 = 0%Z
  /\ Cli.fs (run_init "local" data_dir w).2 = f3
  /\ "[yellow]! .env already exists, skipping creation[/]"
       ∈ Cli.console (run_init "local" data_dir w).2.
Proof.
  intros data_path H1 H2 H3 He. init_unfold. fold data_path.
  rewrite H1. cbn. rewrite H2. cbn. rewrite H3. cbn. rewrite He. cbn.
  split; [reflexivity|]. split; [reflexivity|].
  rewrite !elem_of_app. left. left. left. left. left. right. apply list_elem_of_singleton.
  reflexivity.
Qed.

(** In local mode without ".env", [init] writes the five settings once: the
    mode, the database URL and the ChromaDB directory, both in POSIX form
    on Windows and elsewhere alike, the local embedding provider and the
    closing comment. *)
Theorem init_writes_env (data_dir : string) (w : Cli.World) (f1 f2 f3 f4 : FS) :
  let data_path := resolve data_dir in
  let sqlite_dir := Cli.truediv data_path "sqlite" in
  let chroma_dir := Cli.truediv data_path "chroma" in
  mkdir (Cli.fs w) data_path true = (Eff.Done tt, f1) ->
  mkdir f1 sqlite_dir false = (Eff.Done tt, f2) ->
  mkdir f2 chroma_dir false = (Eff.Done tt, f3) ->
  path_exists f3 ".env" = false ->
  write_text f3 ".env"
    (Cli.env_text "local"
       ("sqlite+aiosqlite:///" ++ Cli.as_posix nt (Cli.truediv sqlite_dir "docvector.db"))
       (Cli.as_posix nt chroma_dir))
    = (Eff.Done tt, f4) ->
  (run_init "local" data_dir w).1 = 0%Z
  /\ Cli.fs (run_init "local" data_dir w).2 = f4.
Proof.
  intros data_path sqlite_dir chroma_dir H1 H2 H3 He Hw.
  assert (Hurl : Cli.db_url_of nt (Cli.truediv sqlite_dir "docvector.db")
                 = "sqlite+aiosqlite:///"
                     ++ Cli.as_posix nt (Cli.truediv sqlite_dir "docvector.db")).
  { unfold Cli.db_url_of. destruct nt; [reflexivity|]. rewrite as_posix_posix. reflexivity. }
  init_unfold. fold data_path. rewrite H1. cbn. fold sqlite_dir. rewrite H2. cbn.
  fold chroma_dir. rewrite H3. cbn. rewrite He. cbn. rewrite Hurl, Hw. cbn.
  split; reflexivity.
Qed.

End InitCommand.

Section InitTwice.

Context {FS Err : Type}.
Variable nt : bool.
Variable resolve : string -> Cli.Path.
Variable mkdir : FS -> Cli.Path -> bool -> Eff.outcome Err unit * FS.
Variable path_exists : FS -> string -> bool.
Variable write_text : FS -> string -> string -> Eff.outcome Err unit * FS.
Variable str_err : Err -> string.
Variable is_dir : FS -> Cli.Path -> bool.
Hypothesis laws : Cli.FsLaws mkdir path_exists write_text is_dir.

Abbreviation init_again := (Cli.init nt resolve mkdir path_exists write_text str_err).

Ltac init_steps :=
  unfold Cli.init, Cli.init_body, Cli.init_local, Cli.bind, Cli.on_fs, Cli.print, Cli.ret;
  cbn [Cli.fs Cli.console].

(** What a run of [init] that ended with code 0 has left behind. *)
Lemma init_done (mode data_dir : string) (w w1 : Cli.World) :
  init_again mode data_dir w = (0%Z, w1) ->
  let data_path := resolve data_dir in
  is_dir (Cli.fs w1) data_path = true
  /\ (mode = "local" ->
      is_dir (Cli.fs w1) (Cli.truediv data_path "sqlite") = true
      /\ is_dir (Cli.fs w1) (Cli.truediv data_path "chroma") = true
      /\ path_exists (Cli.fs w1) ".env" = true).
Proof.
  intros Hrun data_path. revert Hrun. init_steps. fold data_path.
  destruct (mkdir (Cli.fs w) data_path true) as [[[]|e] f1] eqn:H1; cbn; [|discriminate].
  pose proof (Cli.mkdir_makes _ _ _ _ laws _ _ _ _ H1) as D1.
  destruct (String.eqb mode "local") eqn:Hmode; cbn.
  - destruct (mkdir f1 (Cli.truediv data_path "sqlite") false) as [[[]|e] f2] eqn:H2; cbn;
      [|discriminate].
    pose proof (Cli.mkdir_makes _ _ _ _ laws _ _ _ _ H2) as D2.
    pose proof (Cli.mkdir_keeps _ _ _ _ laws _ _ _ _ _ _ D1 H2) as D12.
    destruct (mkdir f2 (Cli.truediv data_path "chroma") false) as [[[]|e] f3] eqn:H3; cbn;
      [|discriminate].
    pose proof (Cli.mkdir_makes _ _ _ _ laws _ _ _ _ H3) as D3.
    pose proof (Cli.mkdir_keeps _ _ _ _ laws _ _ _ _ _ _ D12 H3) as D13.
    pose proof (Cli.mkdir_keeps _ _ _ _ laws _ _ _ _ _ _ D2 H3) as D23.
    destruct (path_exists f3 ".env") eqn:He; cbn.
    + intros [= <-]. cbn. auto.
    + destruct (write_text f3 ".env" _) as [[[]|e] f4] eqn:Hw; cbn; [|discriminate].
      intros [= <-]. cbn.
      split; [exact (Cli.write_keeps _ _ _ _ laws _ _ _ _ _ _ D13 Hw)|]. intros _.
      split; [exact (Cli.write_keeps _ _ _ _ laws _ _ _ _ _ _ D23 Hw)|].
      split; [exact (Cli.write_keeps _ _ _ _ laws _ _ _ _ _ _ D3 Hw)|].
      exact (Cli.write_makes _ _ _ _ laws _ _ _ _ Hw).
  - intros [= <-]. cbn. split; [exact D1|].
    intros ->. discriminate.
Qed.

(** [init] is idempotent on a file system that keeps what it was given:
    after a run that ended with code 0, a second run with the same
    arguments ends with code 0 too and leaves the file system exactly as
    the first run left it; in particular it does not write ".env" again. *)
Theorem init_twice (mode data_dir : string) (w w1 : Cli.World) :
  init_again mode data_dir w = (0%Z, w1) ->
  (init_again mode data_dir w1).1 = 0%Z
  /\ Cli.fs (init_again mode data_dir w1).2 = Cli.fs w1.
Proof.
  intros Hrun. destruct (init_done _ _ _ _ Hrun) as [D1 Hlocal].
  init_steps. rewrite (Cli.mkdir_existing _ _ _ _ laws _ _ true D1). cbn.
  destruct (String.eqb mode "local") eqn:Hmode; cbn.
  - apply String.eqb_eq in Hmode. destruct (Hlocal Hmode) as (D2 & D3 & He).
    rewrite (Cli.mkdir_existing _ _ _ _ laws _ _ false D2). cbn.
    rewrite (Cli.mkdir_existing _ _ _ _ laws _ _ false D3). cbn.
    rewrite He. cbn. split; reflexivity.
  - split; reflexivity.
Qed.

End InitTwice.

(** ** Paths that [init] writes and the code that reads them *)

Lemma concat_snoc (s : string) (names : list string) (n : string) :
  String.concat s (names ++ [n])
  = match names with
    | [] => n
    | _ => String.concat s names ++ s ++ n
    end.
Proof.
  induction names as [|x names IH]; [reflexivity|].
  change ((x :: names) ++ [n])%list with (x :: (names ++ [n]))%list.
  destruct names as [|y names]; [reflexivity|].
  change (String.concat s (x :: (y :: names) ++ [n]))
    with (x ++ s ++ String.concat s ((y :: names) ++ [n])).
  rewrite IH.
  change (String.concat s (x :: y :: names)) with (x ++ s ++ String.concat s (y :: names)).
  rewrite !str_app_assoc. reflexivity.
Qed.

(** The string of a path extended by a name ends in that name, and
    extending it once more adds a separator and the next name. *)
Lemma str_path_child (path : Cli.Path) (n : string) :
  exists a, Cli.str_path false (Cli.truediv path n) = a ++ n
            /\ forall m, Cli.str_path false (Cli.truediv (Cli.truediv path n) m)
                         = (a ++ n) ++ "/" ++ m.
Proof.
  unfold Cli.str_path, Cli.truediv. cbn [Cli.anchor Cli.parts Cli.sep].
  destruct (Cli.parts path) as [|x names] eqn:E.
  - exists (Cli.anchor path). split; [reflexivity|]. intros m.
    cbn. rewrite !str_app_assoc. reflexivity.
  - exists (Cli.anchor path ++ String.concat "/" (x :: names) ++ "/"). split.
    + rewrite concat_snoc. rewrite !str_app_assoc. reflexivity.
    + intros m. rewrite (concat_snoc "/" ((x :: names) ++ [n]) m).
      rewrite concat_snoc.
      destruct ((x :: names) ++ [n])%list eqn:E'; [destruct names; discriminate|].
      rewrite !str_app_assoc. reflexivity.
Qed.

Lemma last_piece_none (s : string) :
  Py.contains "///" s = false -> forall k, Eff.last_piece "///" s k = None.
Proof.
  induction s as [|c s IH]; [reflexivity|]. intros Hc k.
  cbn [Py.contains] in Hc. apply orb_false_elim in Hc as [Hp Hs].
  cbn [Eff.last_piece]. destruct k as [|k]; [|apply IH; exact Hs].
  rewrite Hp. apply IH. exact Hs.
Qed.

(** The URL that [init] writes (off Windows) and [get_engine] agree on the
    directory: the URL starts with "sqlite", the path after its last "///"
    is the path of the database file, and the directory [get_engine] makes
    for it is the "sqlite" directory that [init] created. *)
Theorem init_url_read_by_get_engine (data_path : Cli.Path) :
  let sqlite_dir := Cli.truediv data_path "sqlite" in
  let db_path := Cli.truediv sqlite_dir "docvector.db" in
  let db_url := Cli.db_url_of false db_path in
  Py.contains "///" (Cli.str_path false db_path) = false ->
  String.prefix "sqlite" db_url = true
  /\ Eff.split_last "///" db_url = Cli.str_path false db_path
  /\ Py.dirname (Eff.split_last "///" db_url) = Cli.str_path false sqlite_dir
  /\ forall (FS Err : Type) (makedirs : FS -> string -> Eff.outcome Err unit * FS)
            (env : string) (files : FS),
       Db.create_sqlite_directory makedirs
         {| Db.database_url := db_url; Db.environment := env |} files
       = makedirs files (Cli.str_path false sqlite_dir).
Proof.
  intros sqlite_dir db_path db_url Hclean.
  assert (Hprefix : String.prefix "sqlite" db_url = true) by reflexivity.
  assert (Hsplit : Eff.split_last "///" db_url = Cli.str_path false db_path).
  { unfold db_url, Cli.db_url_of, Eff.split_last.
    set (P := Cli.str_path false db_path) in *.
    change ("sqlite+aiosqlite:///" ++ P)
      with (String "s" (String "q" (String "l" (String "i" (String "t" (String "e"
           (String "+" (String "a" (String "i" (String "o" (String "s" (String "q"
           (String "l" (String "i" (String "t" (String "e" (String ":"
           (String "/" (String "/" (String "/" P)))))))))))))))))))).
    cbn. rewrite (last_piece_none P Hclean 0).
    replace (String.prefix "" P) with true by (destruct P; reflexivity).
    reflexivity. }
  destruct (str_path_child data_path "sqlite") as (a & Ha & Hchild).
  assert (Hdir : Py.dirname (Cli.str_path false db_path) = Cli.str_path false sqlite_dir).
  { unfold db_path, sqlite_dir. rewrite (Hchild "docvector.db"), Ha.
    apply dirname_child; [discriminate|reflexivity|reflexivity]. }
  split; [exact Hprefix|]. split; [exact Hsplit|].
  split; [rewrite Hsplit; exact Hdir|].
  intros FS Err makedirs env files. unfold Db.create_sqlite_directory.
  cbn [Db.database_url]. rewrite Hprefix, Hsplit, Hdir.
  unfold sqlite_dir. rewrite Ha.
  destruct (a ++ "sqlite") eqn:E; [|reflexivity].
  exfalso. revert E. apply str_app_nonempty. discriminate.
Qed.

Lemma init_url_read_by_get_engine_witness :
  Py.contains "///"
    (Cli.str_path false
       (Cli.truediv (Cli.truediv (MemFs.resolve "./data") "sqlite") "docvector.db")) = false
  /\ Eff.split_last "///"
       "sqlite+aiosqlite:////home/user/project/data/sqlite/docvector.db"
     = "/home/user/project/data/sqlite/docvector.db"
  /\ Db.create_sqlite_directory MemFs.makedirs
       {| Db.database_url :=
            "sqlite+aiosqlite:////home/user/project/data/sqlite/docvector.db";
          Db.environment := "development" |} MemFs.project
     = MemFs.makedirs MemFs.project "/home/user/project/data/sqlite".
Proof.
  split; [reflexivity|].
  destruct (init_url_read_by_get_engine (MemFs.resolve "./data") eq_refl)
    as (_ & Hsplit & _ & Hdir).
  split; [exact Hsplit|].
  exact (Hdir MemFs.T string MemFs.makedirs "development" MemFs.project).
Defined.

(** The ChromaDB directory that [init] writes to ".env" (off Windows) is
    validated against the data directory that [init] made: the parent the
    validator computes for it is the data directory, so validation passes
    exactly when that directory is missing or writable. *)
Theorem init_chroma_directory_validation
    (os : Py.FileSystem) (settings : Settings) (data_path : Cli.Path)
    (names : list string) (n : string) :
  Cli.parts data_path = (names ++ [n])%list ->
  n <> "" ->
  Py.has_sep n = false ->
  chroma_persist_directory settings = Cli.as_posix false (Cli.truediv data_path "chroma") ->
  Factory.parent_dir_of (chroma_persist_directory settings) = Cli.str_path false data_path
  /\ (Factory._validate_chroma_config os settings = Ok tt <->
      Py.path_exists os (Cli.str_path false data_path) = false
      \/ Py.access_W_OK os (Cli.str_path false data_path) = true).
Proof.
  intros Hparts Hne Hs Hdir.
  set (p0 := {| Cli.anchor := Cli.anchor data_path; Cli.parts := names |}).
  destruct (str_path_child p0 n) as (a & Ha & Hchild).
  assert (E1 : Cli.str_path false data_path = a ++ n).
  { rewrite <- Ha. unfold Cli.str_path, Cli.truediv. cbn [Cli.anchor Cli.parts].
    rewrite Hparts. reflexivity. }
  assert (E2 : chroma_persist_directory settings = (a ++ n) ++ "/" ++ "chroma").
  { rewrite Hdir, as_posix_posix, <- (Hchild "chroma").
    unfold Cli.str_path, Cli.truediv. cbn [Cli.anchor Cli.parts]. rewrite Hparts.
    reflexivity. }
  assert (Hparent : Factory.parent_dir_of (chroma_persist_directory settings) = a ++ n).
  { unfold Factory.parent_dir_of. rewrite E2.
    rewrite (dirname_child a n "chroma" Hne Hs eq_refl).
    destruct (a ++ n) eqn:E; [|reflexivity].
    exfalso. exact (str_app_nonempty a n Hne E). }
  split; [rewrite Hparent, E1; reflexivity|].
  unfold Factory._validate_chroma_config. rewrite Hparent, <- E1.
  assert (Ht : Py.truthy_str (Some (chroma_persist_directory settings)) = true).
  { rewrite E2. destruct ((a ++ n) ++ "/" ++ "chroma") eqn:E; [|reflexivity].
    exfalso. revert E. apply str_app_nonempty. discriminate. }
  rewrite Ht. cbn [negb].
  destruct (Py.path_exists os (Cli.str_path false data_path));
    destruct (Py.access_W_OK os (Cli.str_path false data_path)); cbn;
    split; auto; try discriminate; intros [?|?]; discriminate.
Qed.

Lemma init_chroma_directory_validation_witness :
  Cli.parts (MemFs.resolve "./data") = (["home"; "user"; "project"] ++ ["data"])%list
  /\ "data" <> ""
  /\ Py.has_sep "data" = false
  /\ chroma_persist_directory init_settings
     = Cli.as_posix false (Cli.truediv (MemFs.resolve "./data") "chroma")
  /\ Factory.parent_dir_of (chroma_persist_directory init_settings)
     = "/home/user/project/data"
  /\ Factory._validate_chroma_config readonly_fs init_settings
     = Raise (VectorDBConfigurationError
                "ChromaDB persist directory parent '/home/user/project/data' is not writable. Check file permissions.").
Proof.
  assert (H : "data" <> "") by discriminate.
  split; [reflexivity|]. split; [exact H|]. split; [reflexivity|]. split; [reflexivity|].
  destruct (init_chroma_directory_validation readonly_fs init_settings
              (MemFs.resolve "./data") ["home"; "user"; "project"] "data"
              eq_refl H eq_refl eq_refl) as [Hparent _].
  split; [exact Hparent|reflexivity].
Defined.

(** The file system in memory keeps what it was given. *)
Lemma memfs_lineage (path : Cli.Path) :
  Cli.str_path false path ∈ MemFs.lineage path.
Proof.
  unfold MemFs.lineage. apply list_elem_of_fmap.
  exists (length (Cli.parts path)). split.
  - rewrite firstn_all. destruct path. reflexivity.
  - apply list_elem_of_In, in_seq. lia.
Qed.

Lemma memfs_laws :
  Cli.FsLaws MemFs.mkdir MemFs.path_exists MemFs.write_text MemFs.is_dir.
Proof.
  split.
  - intros f p b f'. unfold MemFs.mkdir, MemFs.is_dir.
    pose proof (memfs_lineage p) as Hl. revert Hl.
    generalize (MemFs.lineage p). intros l Hl.
    destruct (bool_decide (Cli.str_path false p ∈ MemFs.dirs f)) eqn:Hd.
    { intros [= <-]. exact Hd. }
    destruct (bool_decide (is_Some (MemFs.files f !! Cli.str_path false p)));
      [discriminate|].
    destruct b.
    { intros [= <-]. apply bool_decide_eq_true. cbn [MemFs.dirs MemFs.files].
      rewrite elem_of_union, elem_of_list_to_set. left. exact Hl. }
    destruct (bool_decide (Cli.str_path false (MemFs.parent p) ∈ MemFs.dirs f));
      [|discriminate].
    intros [= <-]. apply bool_decide_eq_true. cbn [MemFs.dirs MemFs.files]. set_solver.
  - intros f p b. unfold MemFs.mkdir, MemFs.is_dir. intros ->. reflexivity.
  - intros f p b q r f'. unfold MemFs.mkdir, MemFs.is_dir. intros Hq.
    apply bool_decide_eq_true in Hq. generalize (MemFs.lineage p). intros l.
    destruct (bool_decide (Cli.str_path false p ∈ MemFs.dirs f)).
    { intros [= <- <-]. apply bool_decide_eq_true. exact Hq. }
    destruct (bool_decide (is_Some (MemFs.files f !! Cli.str_path false p))).
    { intros [= <- <-]. apply bool_decide_eq_true. exact Hq. }
    destruct b.
    { intros [= <- <-]. apply bool_decide_eq_true. cbn [MemFs.dirs MemFs.files]. set_solver. }
    destruct (bool_decide (Cli.str_path false (MemFs.parent p) ∈ MemFs.dirs f));
      intros [= <- <-]; apply bool_decide_eq_true; cbn [MemFs.dirs MemFs.files]; set_solver.
  - intros f n c q r f'. unfold MemFs.write_text, MemFs.is_dir. intros Hq.
    destruct (bool_decide (n ∈ MemFs.dirs f)); intros [= <- <-]; exact Hq.
  - intros f n c f'. unfold MemFs.write_text, MemFs.path_exists.
    destruct (bool_decide (n ∈ MemFs.dirs f)); [discriminate|].
    intros [= <-]. cbn [MemFs.dirs MemFs.files]. rewrite lookup_insert_eq.
    rewrite (bool_decide_eq_true_2 (is_Some (Some c))) by eauto. apply orb_true_r.
Qed.

Lemma init_other_modes_witness :
  "hybrid" <> "local"
  /\ (MemFs.init "hybrid" "./data" (MemFs.start MemFs.project)).1 = 0%Z
  /\ Cli.fs (MemFs.init "hybrid" "./data" (MemFs.start MemFs.project)).2
     = (MemFs.mkdir MemFs.project (MemFs.resolve "./data") true).2
  /\ MemFs.path_exists
       (Cli.fs (MemFs.init "hybrid" "./data" (MemFs.start MemFs.project)).2) ".env"
     = false.
Proof.
  assert (H : "hybrid" <> "local") by discriminate.
  split; [exact H|].
  destruct (init_other_modes false MemFs.resolve MemFs.mkdir MemFs.path_exists
              MemFs.write_text (fun e => e) "hybrid" "./data" (MemFs.start MemFs.project) H)
    as [Hfs Hcode].
  split; [apply Hcode; eexists; reflexivity|].
  split; [exact Hfs|reflexivity].
Defined.

Lemma init_keeps_existing_env_witness :
  MemFs.path_exists
    (MemFs.mkdir
       (MemFs.mkdir (MemFs.mkdir MemFs.configured (MemFs.resolve "./data") true).2
          (Cli.truediv (MemFs.resolve "./data") "sqlite") false).2
       (Cli.truediv (MemFs.resolve "./data") "chroma") false).2 ".env" = true
  /\ (MemFs.init "local" "./data" (MemFs.start MemFs.configured)).1 = 0%Z
  /\ MemFs.files (Cli.fs (MemFs.init "local" "./data" (MemFs.start MemFs.configured)).2)
     = {[ ".env" := "DOCVECTOR_MCP_MODE=cloud" ]}.
Proof.
  split; [reflexivity|].
  destruct (init_keeps_existing_env false MemFs.resolve MemFs.mkdir MemFs.path_exists
              MemFs.write_text (fun e => e) "./data" (MemFs.start MemFs.configured)
              _ _ _ eq_refl eq_refl eq_refl eq_refl) as (Hcode & Hfs & _).
  split; [exact Hcode|]. unfold MemFs.init. rewrite Hfs. reflexivity.
Defined.

Lemma init_writes_env_witness :
  MemFs.path_exists
    (MemFs.mkdir
       (MemFs.mkdir (MemFs.mkdir MemFs.project (MemFs.resolve "./data") true).2
          (Cli.truediv (MemFs.resolve "./data") "sqlite") false).2
       (Cli.truediv (MemFs.resolve "./data") "chroma") false).2 ".env" = false
  /\ (MemFs.init "local" "./data" (MemFs.start MemFs.project)).1 = 0%Z
  /\ MemFs.files (Cli.fs (MemFs.init "local" "./data" (MemFs.start MemFs.project)).2)
     = {[ ".env" :=
            Cli.env_text "local"
              "sqlite+aiosqlite:////home/user/project/data/sqlite/docvector.db"
              "/home/user/project/data/chroma" ]}.
Proof.
  split; [reflexivity|].
  destruct (init_writes_env false MemFs.resolve MemFs.mkdir MemFs.path_exists
              MemFs.write_text (fun e => e) "./data" (MemFs.start MemFs.project)
              _ _ _ _ eq_refl eq_refl eq_refl eq_refl eq_refl) as (Hcode & Hfs).
  split; [exact Hcode|]. unfold MemFs.init. rewrite Hfs. reflexivity.
Defined.

Lemma init_twice_witness :
  MemFs.init "local" "./data" (MemFs.start MemFs.project)
  = (0%Z, (MemFs.init "local" "./data" (MemFs.start MemFs.project)).2)
  /\ (MemFs.init "local" "./data"
        (MemFs.init "local" "./data" (MemFs.start MemFs.project)).2).1 = 0%Z
  /\ Cli.fs (MemFs.init "local" "./data"
               (MemFs.init "local" "./data" (MemFs.start MemFs.project)).2).2
     = Cli.fs (MemFs.init "local" "./data" (MemFs.start MemFs.project)).2.
Proof.
  assert (H : MemFs.init "local" "./data" (MemFs.start MemFs.project)
              = (0%Z, (MemFs.init "local" "./data" (MemFs.start MemFs.project)).2))
    by reflexivity.
  split; [exact H|].
  exact (init_twice false MemFs.resolve MemFs.mkdir MemFs.path_exists MemFs.write_text
           (fun e => e) MemFs.is_dir memfs_laws "local" "./data" _ _ H).
Defined.

Lemma delete_with_empty_arguments_witness :
  (is_Some (Some (@nil string)) \/ is_Some (Some (∅ : gmap string any)))
  /\ Py.truthy_list (Some (@nil string)) = false
  /\ Py.truthy_dict (Some (∅ : gmap string any)) = false
  /\ Qdrant.delete Mem.get_collection Mem.delete Mem._build_filter
       Mem.connected "docs" (Some []) (Some ∅)
     = (Ok 0%Z, Mem.connected)
  /\ Qdrant.delete Mem.get_collection Mem.delete Mem._build_filter
       Mem.connected "missing" (Some []) (Some ∅)
     = (Raise (Mem.not_found "missing"), Mem.connected).
Proof.
  assert (H : is_Some (Some (@nil string)) \/ is_Some (Some (∅ : gmap string any)))
    by (left; eauto).
  split; [exact H|]. split; [reflexivity|]. split; [reflexivity|]. split.
  - exact (delete_with_empty_arguments Mem.get_collection Mem.delete Mem._build_filter
             Mem.connected Mem.docs "docs" (Some []) (Some ∅)
             H eq_refl eq_refl eq_refl).
  - exact (delete_with_empty_arguments Mem.get_collection Mem.delete Mem._build_filter
             Mem.connected Mem.docs "missing" (Some []) (Some ∅)
             H eq_refl eq_refl eq_refl).
Defined.

Lemma delete_ids_then_filter_witness :
  Mem.get_collection Mem.docs "docs" = Ok (Mem.info_of 3)
  /\ Mem.delete Mem.docs "docs" (Qdrant.PointIdsList ["p1"; "p3"])
     = (Ok tt, docs_without_p1_p3)
  /\ Mem.get_collection docs_without_p1_p3 "docs" = Ok (Mem.info_of 1)
  /\ Mem.get_collection docs_emptied "docs" = Ok (Mem.info_of 0)
  /\ Qdrant.delete Mem.get_collection Mem.delete Mem._build_filter
       Mem.connected "docs" (Some ["p1"; "p3"]) (Some {[ "source" := AStr "react" ]})
     = (Ok 3%Z, Qdrant.with_client Mem.connected docs_emptied).
Proof.
  split; [reflexivity|]. split; [reflexivity|]. split; [reflexivity|]. split; [reflexivity|].
  exact (delete_ids_then_filter Mem.get_collection Mem.delete Mem._build_filter
           Mem.connected Mem.docs docs_without_p1_p3 docs_emptied "docs"
           ["p1"; "p3"] {[ "source" := AStr "react" ]} {[ "source" := AStr "react" ]}
           (Mem.info_of 3) (Mem.info_of 0)
           eq_refl eq_refl eq_refl eq_refl eq_refl eq_refl eq_refl eq_refl).
Defined.

Lemma delete_not_atomic_witness :
  failing_build_filter {[ "source" := AStr "react" ]}
    = Raise (ValueError "Unsupported filter operator")
  /\ Qdrant.delete Mem.get_collection Mem.delete failing_build_filter
       Mem.connected "docs" (Some ["p1"; "p3"]) (Some {[ "source" := AStr "react" ]})
     = (Raise (ValueError "Unsupported filter operator"),
        Qdrant.with_client Mem.connected docs_without_p1_p3)
  /\ Mem.get_collection docs_without_p1_p3 "docs" = Ok (Mem.info_of 1).
Proof.
  split; [reflexivity|]. split; [|reflexivity].
  exact (delete_not_atomic Mem.get_collection Mem.delete failing_build_filter
           Mem.connected Mem.docs docs_without_p1_p3 "docs"
           ["p1"; "p3"] {[ "source" := AStr "react" ]}
           (ValueError "Unsupported filter operator") (Mem.info_of 3)
           eq_refl eq_refl eq_refl eq_refl eq_refl eq_refl).
Defined.

(** ** Points and results of the remote adapter *)

Lemma to_results_cons (p : Points.ScoredPoint) (points : list Points.ScoredPoint) :
  exists r, Points.to_results (p :: points) = r :: Points.to_results points
            /\ Base.score r = Points.score p
            /\ Base.result_vector r = None.
Proof. eexists. split; [reflexivity|]. split; reflexivity. Qed.

Lemma HdRel_to_results (p : Points.ScoredPoint) (r : Base.VectorSearchResult)
    (points : list Points.ScoredPoint) :
  Base.score r = Points.score p ->
  HdRel (fun a b => (Base.score b <= Base.score a)%Q) r (Points.to_results points)
  <-> HdRel (fun a b => (Points.score b <= Points.score a)%Q) p points.
Proof.
  intros E. destruct points as [|q points]; [split; constructor|].
  split; intros H; apply HdRel_inv in H; constructor; cbn in *; rewrite ?E in *; exact H.
Qed.

(** The conversion of the service's answer passes it through: as many
    results as points, in the service's order and with the service's
    scores, never a vector.  So the results are in descending order of
    score exactly when the points are, and their scores lie in [0, 1]
    exactly when the service's do. *)
Theorem search_results_pass_through (points : list Points.ScoredPoint) :
  length (Points.to_results points) = length points
  /\ Base.score <$> Points.to_results points = Points.score <$> points
  /\ Forall (fun r => Base.result_vector r = None) (Points.to_results points)
  /\ (Sorted (fun a b => (Base.score b <= Base.score a)%Q) (Points.to_results points)
      <-> Sorted (fun a b => (Points.score b <= Points.score a)%Q) points)
  /\ (Forall (fun r => (0 <= Base.score r <= 1)%Q) (Points.to_results points)
      <-> Forall (fun p => (0 <= Points.score p <= 1)%Q) points).
Proof.
  induction points as [|p points (IHlen & IHscore & IHvec & IHsort & IHrange)].
  - repeat split; constructor.
  - destruct (to_results_cons p points) as (r & -> & Hs & Hv).
    split; [cbn; rewrite IHlen; reflexivity|].
    split; [cbn; rewrite IHscore, Hs; reflexivity|].
    split; [constructor; assumption|].
    split.
    + split; intros H; apply Sorted_inv in H as [H1 H2]; constructor.
      * apply IHsort. exact H1.
      * apply (HdRel_to_results p r points Hs). exact H2.
      * apply IHsort. exact H1.
      * apply (HdRel_to_results p r points Hs). exact H2.
    + split; intros H; apply Forall_cons in H as [H1 H2]; constructor.
      * rewrite <- Hs. exact H1.
      * apply IHrange. exact H2.
      * rewrite Hs. exact H1.
      * apply IHrange. exact H2.
Qed.

(** What crosses the [except] clause of the remote [create_collection]: a
    response of the service never does, a 409 becomes the [ValueError]
    that names the collection whatever its text, and a failure of the
    connection, which is of another class, passes untranslated. *)
Theorem create_errors_mapped (A : Type) (name : string) (call : result A) :
  (forall status_code msg,
     Points.map_create_errors name call <> Raise (UnexpectedResponse status_code msg))
  /\ (forall msg,
        call = Raise (UnexpectedResponse (Some 409%Z) msg) ->
        Points.map_create_errors name call
          = Raise (ValueError ("Collection " ++ name ++ " already exists")))
  /\ (forall msg,
        call = Raise (ResponseHandlingException msg) ->
        Points.map_create_errors name call = Raise (ResponseHandlingException msg)).
Proof.
  split; [|split].
  - intros status_code msg. unfold Points.map_create_errors.
    destruct call as [a|e]; [discriminate|].
    destruct e; try discriminate.
    destruct (bool_decide _ || _); discriminate.
  - intros msg ->. reflexivity.
  - intros msg ->. reflexivity.
Qed.

Lemma create_errors_mapped_witness :
  Points.map_create_errors "docs"
    (@Raise unit (UnexpectedResponse (Some 409%Z) "Unexpected Response: 409 (Conflict)"))
  = Raise (ValueError "Collection docs already exists")
  /\ Points.map_create_errors "docs" (@Raise unit Mem.unreachable) = Raise Mem.unreachable.
Proof.
  destruct (create_errors_mapped unit "docs"
              (Raise (UnexpectedResponse (Some 409%Z) "Unexpected Response: 409 (Conflict)")))
    as (_ & Hconflict & _).
  destruct (create_errors_mapped unit "docs" (Raise Mem.unreachable)) as (_ & _ & Hconn).
  split; [exact (Hconflict _ eq_refl)|exact (Hconn _ eq_refl)].
Defined.
